(** * QuickGPT: the hotkey parser, the transcript and the popup controller

    A shallow embedding of [main.py].  The application object [QuickGPT]
    becomes a record that the handlers pass along; the Qt event loop becomes
    a list of events dispatched one after the other on the interaction
    thread.

    Conventions of the embedding:
    - a Python [str] is a [string]; chat texts are only compared, joined and
      stored, hotkey specifications are split, stripped and lowered, which is
      modelled for ASCII characters (the symbol table has ASCII keys only);
    - a Python [int] is a [Z], [mods |= flag] is [Z.lor];
    - [None] is [None] of an [option];
    - a [dict] with string keys is a [gmap string _];
    - widgets, style sheets, animations and the rainbow border are left out:
      the popup contributes its visibility and the focus of its input. *)

From Stdlib Require Import ZArith Ascii String DecimalString.
From stdpp Require Import base tactics option list gmap strings.

Local Open Scope string_scope.
Local Open Scope list_scope.
Local Open Scope Z_scope.

(** ** Module constants *)

Definition MOD_ALT : Z := 0x0001.
Definition MOD_CONTROL : Z := 0x0002.
Definition MOD_SHIFT : Z := 0x0004.
Definition MOD_WIN : Z := 0x0008.

(** [f"f{i}"] for a positive [i]. *)
Definition str_of_nat (n : nat) : string :=
  NilEmpty.string_of_uint (Nat.to_uint n).

Definition ord (ch : ascii) : Z := Z.of_N (N_of_ascii ch).

(** [ch.lower()] and [s.lower()] on ASCII letters. *)
Definition lower_char (ch : ascii) : ascii :=
  let n := N_of_ascii ch in
  if ((65 <=? n) && (n <=? 90))%N then ascii_of_N (n + 32) else ch.

Fixpoint lower (s : string) : string :=
  match s with
  | EmptyString => EmptyString
  | String ch r => String (lower_char ch) (lower r)
  end.

(** The dict literal of [VK_MAP]. *)
Definition VK_MAP_literal : gmap string Z :=
  <["enter" := 0x0D]> (<["esc" := 0x1B]> (<["escape" := 0x1B]>
    (<["tab" := 0x09]> (<["space" := 0x20]> ∅)))).

(** [VK_MAP.update({f"f{i}": 0x70 + i - 1 for i in range(1, 25)})] *)
Definition add_fkeys (m : gmap string Z) : gmap string Z :=
  foldl (fun acc i => <["f" +:+ str_of_nat i := 0x70 + Z.of_nat i - 1]> acc)
        m (seq 1 24).

(** [for ch in "ABC...XYZ0123456789": VK_MAP[ch.lower()] = ord(ch)] *)
Definition add_chars (m : gmap string Z) : gmap string Z :=
  foldl (fun acc ch => <[String (lower_char ch) EmptyString := ord ch]> acc)
        m (list_ascii_of_string "ABCDEFGHIJKLMNOPQRSTUVWXYZ0123456789").

Definition VK_MAP : gmap string Z := add_chars (add_fkeys VK_MAP_literal).

(** ** Hotkey specifications *)

(** [s.split(sep)] for a one-character separator: the pieces between the
    separators, empty pieces included; the empty string gives one empty
    piece. *)
Fixpoint split (sep : ascii) (s : string) : list string :=
  match s with
  | EmptyString => [EmptyString]
  | String ch r =>
      if bool_decide (ch = sep) then EmptyString :: split sep r
      else match split sep r with
           | piece :: pieces => String ch piece :: pieces
           | [] => [String ch EmptyString]
           end
  end.

(** The ASCII characters [str.isspace] accepts. *)
Definition isspace (ch : ascii) : bool :=
  let n := N_of_ascii ch in
  (((9 <=? n) && (n <=? 13)) || ((28 <=? n) && (n <=? 32)))%N.

Fixpoint lstrip (s : string) : string :=
  match s with
  | String ch r => if isspace ch then lstrip r else s
  | EmptyString => EmptyString
  end.

Fixpoint rstrip (s : string) : string :=
  match s with
  | EmptyString => EmptyString
  | String ch r =>
      match rstrip r with
      | EmptyString => if isspace ch then EmptyString else String ch EmptyString
      | r' => String ch r'
      end
  end.

(** [s.strip()] for a text of ASCII characters; white space outside ASCII,
    which Python strips too, is not recognised. *)
Definition strip (s : string) : string := rstrip (lstrip s).

(** [[p.strip().lower() for p in s.split("+") if p.strip()]] *)
Definition hotkey_parts (s : string) : list string :=
  omap (fun p => if bool_decide (strip p = EmptyString) then None
                 else Some (lower (strip p)))
       (split "+"%char s).

(** The flag a token adds to [mods], [None] for a token of the [else]
    branch. *)
Definition modifier_flag (p : string) : option Z :=
  if bool_decide (p ∈ ["ctrl"; "control"]) then Some MOD_CONTROL
  else if bool_decide (p = "alt") then Some MOD_ALT
  else if bool_decide (p = "shift") then Some MOD_SHIFT
  else if bool_decide (p ∈ ["win"; "meta"; "super"]) then Some MOD_WIN
  else None.

(** One round of the loop of [parse_hotkey] on the pair [(mods, key)]. *)
Definition parse_step (st : Z * option Z) (p : string) : Z * option Z :=
  match modifier_flag p with
  | Some flag => (Z.lor st.1 flag, st.2)
  | None => (st.1, VK_MAP !! p)
  end.

Definition parse_parts (parts : list string) : Z * option Z :=
  foldl parse_step (0, None) parts.

Definition parse_hotkey (s : string) : Z * option Z :=
  parse_parts (hotkey_parts s).

(** ** Conversation data *)

(** One message of the conversation, [{"role": ..., "content": ...}]. *)
Record ChatTurn := { role : string; content : string }.

(** One line of the on-screen transcript, [(who, text)]. *)
Abbreviation Line := (string * string)%type.

(** The JSON object [_save_history] writes. *)
Record HistoryFile := { file_messages : list ChatTurn; file_model : string }.

(** A [Worker] with the arguments of its constructor. *)
Record Worker := { worker_messages : list ChatTurn; worker_model : string }.

#[global] Instance ChatTurn_eq_dec : EqDecision ChatTurn.
Proof. solve_decision. Defined.

#[global] Instance Worker_eq_dec : EqDecision Worker.
Proof. solve_decision. Defined.

#[global] Instance HistoryFile_eq_dec : EqDecision HistoryFile.
Proof. solve_decision. Defined.

Definition PLACEHOLDER : string := "Thinking…".

Definition SYSTEM_TURN : ChatTurn :=
  {| role := "system";
     content := "You are a concise, helpful assistant. Your name is QuickGPT. Avoid typing long paragraphs in one go. Quick, concise sentences are best." |}.

(** [str(n)] for an integer. *)
Definition str (n : Z) : string := NilZero.string_of_int (Z.to_int n).

(** [l[-n:]] for a positive [n]: the last [n] elements, the whole list when
    it is shorter. *)
Definition last_n {A} (n : nat) (l : list A) : list A :=
  drop (length l - n) l.

(** ** The worker *)

(** The body of the completion request; the temperature is left out. *)
Record Request := { request_model : string; request_messages : list ChatTurn }.

(** What came back: the content of the first choice, which may be absent,
    or the exception of the call. *)
Inductive Response :=
| Completion (content : option string)
| CallRaised (e : string).

(** The signal the worker emits. *)
Inductive Signal :=
| finished (text : string)
| error (msg : string).

(** [Worker.run] along the SDK path: the key is read when the worker runs,
    a missing or empty key raises before any request is made, and exactly
    one of the two signals is emitted. The result is the request made, if
    any, with the signal. *)
Definition Worker_run (api_key : option string)
    (remote : Request -> Response) (w : Worker) : option Request * Signal :=
  match api_key with
  | Some (String c k) =>
      let request := {| request_model := worker_model w;
                        request_messages := worker_messages w |} in
      (Some request,
       match remote request with
       | Completion (Some text) => finished text
       | Completion None => finished EmptyString
       | CallRaised e => error e
       end)
  | _ =>
      (None,
       error "OPENAI_API_KEY is not set. Set it in your environment or a .env file.")
  end.

(** ** The application object

    The fields of [self] the handlers read or write, the two properties of
    the popup they query, and the part of the surroundings they act on: the
    threads started and not yet heard from, the history file, and whether
    the next write to it will go through. *)
Record QuickGPT := {
  debug : bool;
  working : bool;
  show_system : bool;
  transcript : list Line;
  model : string;
  messages : list ChatTurn;
  _native_ok : bool;
  _active_worker : option Worker;
  popup_isVisible : bool;
  input_hasFocus : bool;
  threads : list Worker;
  history_file : option HistoryFile;
  disk_ok : bool
}.

Definition set_working (v : bool) (s : QuickGPT) : QuickGPT :=
  {| debug := debug s; working := v; show_system := show_system s;
     transcript := transcript s; model := model s; messages := messages s;
     _native_ok := _native_ok s; _active_worker := _active_worker s;
     popup_isVisible := popup_isVisible s; input_hasFocus := input_hasFocus s;
     threads := threads s; history_file := history_file s;
     disk_ok := disk_ok s |}.

Definition set_show_system (v : bool) (s : QuickGPT) : QuickGPT :=
  {| debug := debug s; working := working s; show_system := v;
     transcript := transcript s; model := model s; messages := messages s;
     _native_ok := _native_ok s; _active_worker := _active_worker s;
     popup_isVisible := popup_isVisible s; input_hasFocus := input_hasFocus s;
     threads := threads s; history_file := history_file s;
     disk_ok := disk_ok s |}.

Definition set_transcript (v : list Line) (s : QuickGPT) : QuickGPT :=
  {| debug := debug s; working := working s; show_system := show_system s;
     transcript := v; model := model s; messages := messages s;
     _native_ok := _native_ok s; _active_worker := _active_worker s;
     popup_isVisible := popup_isVisible s; input_hasFocus := input_hasFocus s;
     threads := threads s; history_file := history_file s;
     disk_ok := disk_ok s |}.

Definition set_model (v : string) (s : QuickGPT) : QuickGPT :=
  {| debug := debug s; working := working s; show_system := show_system s;
     transcript := transcript s; model := v; messages := messages s;
     _native_ok := _native_ok s; _active_worker := _active_worker s;
     popup_isVisible := popup_isVisible s; input_hasFocus := input_hasFocus s;
     threads := threads s; history_file := history_file s;
     disk_ok := disk_ok s |}.

Definition set_messages (v : list ChatTurn) (s : QuickGPT) : QuickGPT :=
  {| debug := debug s; working := working s; show_system := show_system s;
     transcript := transcript s; model := model s; messages := v;
     _native_ok := _native_ok s; _active_worker := _active_worker s;
     popup_isVisible := popup_isVisible s; input_hasFocus := input_hasFocus s;
     threads := threads s; history_file := history_file s;
     disk_ok := disk_ok s |}.

Definition set_native_ok (v : bool) (s : QuickGPT) : QuickGPT :=
  {| debug := debug s; working := working s; show_system := show_system s;
     transcript := transcript s; model := model s; messages := messages s;
     _native_ok := v; _active_worker := _active_worker s;
     popup_isVisible := popup_isVisible s; input_hasFocus := input_hasFocus s;
     threads := threads s; history_file := history_file s;
     disk_ok := disk_ok s |}.

Definition set_active_worker (v : option Worker) (s : QuickGPT) : QuickGPT :=
  {| debug := debug s; working := working s; show_system := show_system s;
     transcript := transcript s; model := model s; messages := messages s;
     _native_ok := _native_ok s; _active_worker := v;
     popup_isVisible := popup_isVisible s; input_hasFocus := input_hasFocus s;
     threads := threads s; history_file := history_file s;
     disk_ok := disk_ok s |}.

Definition set_popup_isVisible (v : bool) (s : QuickGPT) : QuickGPT :=
  {| debug := debug s; working := working s; show_system := show_system s;
     transcript := transcript s; model := model s; messages := messages s;
     _native_ok := _native_ok s; _active_worker := _active_worker s;
     popup_isVisible := v; input_hasFocus := input_hasFocus s;
     threads := threads s; history_file := history_file s;
     disk_ok := disk_ok s |}.

Definition set_input_hasFocus (v : bool) (s : QuickGPT) : QuickGPT :=
  {| debug := debug s; working := working s; show_system := show_system s;
     transcript := transcript s; model := model s; messages := messages s;
     _native_ok := _native_ok s; _active_worker := _active_worker s;
     popup_isVisible := popup_isVisible s; input_hasFocus := v;
     threads := threads s; history_file := history_file s;
     disk_ok := disk_ok s |}.

Definition set_threads (v : list Worker) (s : QuickGPT) : QuickGPT :=
  {| debug := debug s; working := working s; show_system := show_system s;
     transcript := transcript s; model := model s; messages := messages s;
     _native_ok := _native_ok s; _active_worker := _active_worker s;
     popup_isVisible := popup_isVisible s; input_hasFocus := input_hasFocus s;
     threads := v; history_file := history_file s;
     disk_ok := disk_ok s |}.

Definition set_history_file (v : option HistoryFile) (s : QuickGPT) : QuickGPT :=
  {| debug := debug s; working := working s; show_system := show_system s;
     transcript := transcript s; model := model s; messages := messages s;
     _native_ok := _native_ok s; _active_worker := _active_worker s;
     popup_isVisible := popup_isVisible s; input_hasFocus := input_hasFocus s;
     threads := threads s; history_file := v;
     disk_ok := disk_ok s |}.

Definition set_disk_ok (v : bool) (s : QuickGPT) : QuickGPT :=
  {| debug := debug s; working := working s; show_system := show_system s;
     transcript := transcript s; model := model s; messages := messages s;
     _native_ok := _native_ok s; _active_worker := _active_worker s;
     popup_isVisible := popup_isVisible s; input_hasFocus := input_hasFocus s;
     threads := threads s; history_file := history_file s;
     disk_ok := v |}.

(** ** The popup *)

(** [ChatPopup.show_bottom_right]: the popup is shown and its input takes
    the focus. *)
Definition show_bottom_right (s : QuickGPT) : QuickGPT :=
  set_input_hasFocus true (set_popup_isVisible true s).

(** [ChatPopup.hide_with_anim] with its animation run to the end: the
    popup is hidden by the slot of [finished].  [Animated.hide_with_anim]
    below is the call itself, which only starts the animation. *)
Definition hide_with_anim (s : QuickGPT) : QuickGPT :=
  set_popup_isVisible false s.

(** [SystemTray.toggle] *)
Definition SystemTray_toggle (s : QuickGPT) : QuickGPT :=
  if popup_isVisible s then hide_with_anim s else show_bottom_right s.

(** ** History and transcript helpers *)

(** [_render_transcript]: the lines the output widget shows. Rendering
    changes no field of the application object. *)
Definition _render_transcript (s : QuickGPT) : list Line :=
  filter (fun l : Line => ¬ (show_system s = false ∧ l.1 = "System"))
         (transcript s).

(** [_save_history]: the file is rewritten with the messages and the model;
    an exception of the write is swallowed, and the file is then taken to
    keep what it held. *)
Definition _save_history (s : QuickGPT) : QuickGPT :=
  if disk_ok s
  then set_history_file
         (Some {| file_messages := messages s; file_model := model s |}) s
  else s.

Definition _append_line (who text : string) (s : QuickGPT) : QuickGPT :=
  set_transcript (transcript s ++ [(who, text)]) s.

Definition _append_user (text : string) (s : QuickGPT) : QuickGPT :=
  _append_line "You" text
    (set_messages (messages s ++ [{| role := "user"; content := text |}]) s).

Definition _append_assistant (text : string) (s : QuickGPT) : QuickGPT :=
  _append_line "Assistant" text
    (set_messages
       (messages s ++ [{| role := "assistant"; content := text |}]) s).

Definition _append_system (text : string) (s : QuickGPT) : QuickGPT :=
  _append_line "System" text s.

Definition is_placeholder (l : Line) : bool :=
  bool_decide (l.1 = "System") && bool_decide (l.2 = PLACEHOLDER).

(** The loop of [_remove_last_system_placeholder] with the indices
    [k-1, ..., 0] still to visit: the first hit is deleted and ends the
    loop. *)
Fixpoint remove_placeholder_from (k : nat) (t : list Line) : list Line :=
  match k with
  | O => t
  | S i =>
      match t !! i with
      | Some l => if is_placeholder l then delete i t
                  else remove_placeholder_from i t
      | None => remove_placeholder_from i t
      end
  end.

Definition _remove_last_system_placeholder (s : QuickGPT) : QuickGPT :=
  set_transcript
    (remove_placeholder_from (length (transcript s)) (transcript s)) s.

(** ** Hotkey and toggle *)

(** [_toggle_popup] with the call of [tray.toggle] that the zero-delay
    timer posts run at once; [Animated._toggle_popup] below only posts
    it. *)
Definition _toggle_popup (s : QuickGPT) : QuickGPT :=
  if working s && popup_isVisible s
  then (if debug s
        then _append_system "[debug] Toggle blocked while working" s
        else s)
  else SystemTray_toggle s.

Definition _on_hotkey (mods vk : Z) (s : QuickGPT) : QuickGPT :=
  if popup_isVisible s && input_hasFocus s
     && bool_decide (Some vk ∈ [VK_MAP !! "enter"; VK_MAP !! "space"])
     && bool_decide (mods = 0)
  then (if debug s
        then _append_system
               "[debug] Ignored hotkey while typing (bare Enter/Space)" s
        else s)
  else
    _toggle_popup
      (if debug s
       then _append_system
              ("[debug] WM_HOTKEY fired mods=" +:+ str mods
               +:+ " vk=" +:+ str vk) s
       else s).

(** ** Chat workflow *)

Definition _ask_assistant (s : QuickGPT) : QuickGPT :=
  let s1 := _append_system PLACEHOLDER (set_working true s) in
  let worker := {| worker_messages := SYSTEM_TURN :: last_n 20 (messages s1);
                   worker_model := model s1 |} in
  set_threads (threads s1 ++ [worker]) (set_active_worker (Some worker) s1).

Definition _handle_user_message (text : string) (s : QuickGPT) : QuickGPT :=
  let s1 := if debug s
            then _append_system
                   ("[debug] Submit: " +:+ substring 0 60 text) s
            else s in
  _ask_assistant (_save_history (_append_user text s1)).

(** The slot [_on_reply]; the thread and the worker it tears down are the
    ones [self] refers to, which it then forgets. *)
Definition _on_reply (reply : string) (s : QuickGPT) : QuickGPT :=
  set_active_worker None
    (set_working false
       (_save_history
          (_append_assistant reply (_remove_last_system_placeholder s)))).

Definition _on_error (err : string) (s : QuickGPT) : QuickGPT :=
  set_active_worker None
    (set_working false
       (_append_system ("Error: " +:+ err)
          (_remove_last_system_placeholder s))).

Definition _on_model_changed (m : string) (s : QuickGPT) : QuickGPT :=
  _save_history (set_model m s).

Definition _clear_chat (s : QuickGPT) : QuickGPT :=
  _save_history
    (_append_system "History cleared."
       (set_transcript [] (set_messages [] s))).

Definition _toggle_system (s : QuickGPT) : QuickGPT :=
  set_show_system (negb (show_system s)) s.

(** ** Start-up *)

(** What [user32.RegisterHotKey] did. *)
Inductive NativeResult :=
| RegisterOk
| RegisterRefused (err : Z)
| RegisterRaised (e : string).

(** The fallback library: not installed, or what [add_hotkey] did. *)
Inductive KeyboardLib :=
| KeyboardMissing
| AddHotkeyOk
| AddHotkeyRaised (e : string).

(** The hotkey registration of [QuickGPT.__init__]: the native facility
    when the specification parses to a base key, then the fallback library
    when the native path did not succeed. *)
Definition register_hotkey (HOTKEY : string) (native : NativeResult)
    (kb : KeyboardLib) (s : QuickGPT) : QuickGPT :=
  let s0 := set_native_ok false s in
  let s1 :=
    match (parse_hotkey HOTKEY).2 with
    | Some vk =>
        match native with
        | RegisterOk =>
            _append_system
              ("Global hotkey registered (native): " +:+ HOTKEY)
              (set_native_ok true s0)
        | RegisterRefused err =>
            _append_system
              ("Native hotkey failed (code " +:+ str err
               +:+ "). Will try fallback library.") s0
        | RegisterRaised e =>
            _append_system
              ("Native hotkey error: " +:+ e
               +:+ ". Will try fallback library.") s0
        end
    | None =>
        _append_system
          ("Invalid QUICKGPT_HOTKEY '" +:+ HOTKEY
           +:+ "'. Example: ctrl+alt+space or ctrl+shift+g") s0
    end in
  if _native_ok s1 then s1
  else
    match kb with
    | AddHotkeyOk =>
        _append_system
          ("Global hotkey registered (fallback): " +:+ HOTKEY) s1
    | AddHotkeyRaised e =>
        _append_system
          ("Fallback hotkey '" +:+ HOTKEY +:+ "' failed: " +:+ e
           +:+ ". Try running as Administrator or pick another shortcut.") s1
    | KeyboardMissing =>
        _append_system
          "The 'keyboard' package is missing; global hotkey disabled. Install it with: pip install keyboard"
          s1
    end.

(** The fields [QuickGPT.__init__] sets before it registers the hotkey,
    on a first launch, when no history file exists and [_load_history]
    therefore changes nothing. *)
Definition QuickGPT_new (DEBUG : bool) (DEFAULT_MODEL : string)
    (disk : bool) : QuickGPT :=
  {| debug := DEBUG; working := false; show_system := true;
     transcript := []; model := DEFAULT_MODEL; messages := [];
     _native_ok := false; _active_worker := None;
     popup_isVisible := false; input_hasFocus := false;
     threads := []; history_file := None; disk_ok := disk |}.

(** [QuickGPT.__init__] on a first launch. *)
Definition QuickGPT_init (DEBUG : bool) (DEFAULT_MODEL HOTKEY : string)
    (native : NativeResult) (kb : KeyboardLib) (disk : bool) : QuickGPT :=
  register_hotkey HOTKEY native kb (QuickGPT_new DEBUG DEFAULT_MODEL disk).

(** ** The event loop *)

(** What reaches the interaction thread: the signals of the popup, of the
    tray and of the workers, the hotkey callback, and two changes of the
    surroundings the handlers depend on. *)
Inductive Event :=
| Hotkey (mods vk : Z)
| TrayToggle
| KeyEscape
| ClickClose
| Submitted (text : string)
| WorkerFinished (i : nat) (reply : string)
| WorkerError (i : nat) (err : string)
| ClearClicked
| ToggleSystemClicked
| ModelChanged (m : string)
| InputFocus (b : bool)
| DiskWritable (b : bool).

(** The slot each event is connected to.  An outcome comes from the thread
    at position [i], which has then reported. *)
Definition dispatch (ev : Event) (s : QuickGPT) : QuickGPT :=
  match ev with
  | Hotkey mods vk => _on_hotkey mods vk s
  | TrayToggle => SystemTray_toggle s
  | KeyEscape => hide_with_anim s
  | ClickClose => hide_with_anim s
  | Submitted text => _handle_user_message text s
  | WorkerFinished i reply =>
      _on_reply reply (set_threads (delete i (threads s)) s)
  | WorkerError i err =>
      _on_error err (set_threads (delete i (threads s)) s)
  | ClearClicked => _clear_chat s
  | ToggleSystemClicked => _toggle_system s
  | ModelChanged m => _on_model_changed m s
  | InputFocus b => set_input_hasFocus b s
  | DiskWritable b => set_disk_ok b s
  end.

(** When the event can occur: [_on_send] emits [submitted] for a non-empty
    text only, and an outcome needs a thread that has not reported yet.
    The events of the widgets are not tied to [popup_isVisible]: this
    record holds the popup as it is once an animation has run, and the
    widgets can still be reached while a hide animation runs (the module
    [Animated] below follows the animation). *)
Definition enabled (ev : Event) (s : QuickGPT) : bool :=
  match ev with
  | Submitted text => negb (bool_decide (text = EmptyString))
  | WorkerFinished i _ | WorkerError i _ =>
      bool_decide (i < length (threads s))%nat
  | _ => true
  end.

Definition run (evs : list Event) (s : QuickGPT) : QuickGPT :=
  foldl (fun st ev => dispatch ev st) s evs.

(** Every event of the run is enabled where it occurs and allowed by
    [policy] there. *)
Fixpoint admissible (policy : Event -> QuickGPT -> bool)
    (evs : list Event) (s : QuickGPT) : bool :=
  match evs with
  | [] => true
  | ev :: rest =>
      enabled ev s && policy ev s && admissible policy rest (dispatch ev s)
  end.

Definition any_event (ev : Event) (s : QuickGPT) : bool := true.

(** Submissions wait for the flag [working] to be down. *)
Definition submit_when_idle (ev : Event) (s : QuickGPT) : bool :=
  match ev with
  | Submitted _ => negb (working s)
  | _ => true
  end.

(** Only submissions and failures. *)
Definition submit_or_failure (ev : Event) (s : QuickGPT) : bool :=
  match ev with
  | Submitted _ | WorkerError _ _ => true
  | _ => false
  end.

(** A first launch with the default settings and a registered hotkey. *)
Definition fresh : QuickGPT :=
  QuickGPT_init false "gpt-5" "ctrl+alt+space" RegisterOk KeyboardMissing true.

(** ** Vocabulary of the properties *)

(** The flag is down only when no thread is out, and at most one is. *)
Definition exclusive (s : QuickGPT) : Prop :=
  (working s = false -> threads s = []) /\ (length (threads s) <= 1)%nat.

Definition user_turn (text : string) : ChatTurn :=
  {| role := "user"; content := text |}.

Definition assistant_turn (text : string) : ChatTurn :=
  {| role := "assistant"; content := text |}.

(** The texts submitted during a run, in order. *)
Definition submitted_texts (evs : list Event) : list string :=
  omap (fun ev => match ev with Submitted t => Some t | _ => None end) evs.

(** The line [_on_error] shows. *)
Definition error_line (err : string) : Line := ("System", "Error: " +:+ err).

(** What [_save_history] writes for the state. *)
Definition saved (s : QuickGPT) : HistoryFile :=
  {| file_messages := messages s; file_model := model s |}.

(** ** Loading the history *)

(** One round of the loop of [_load_history]: a user or an assistant turn
    is echoed into the transcript, a turn of another role is not. *)
Definition echo_turn (s : QuickGPT) (m : ChatTurn) : QuickGPT :=
  if bool_decide (role m = "user") then _append_line "You" (content m) s
  else if bool_decide (role m = "assistant")
       then _append_line "Assistant" (content m) s
       else s.

(** [_load_history] on a file that [_save_history] wrote, or on no file:
    both keys are present and every message has a role and a content, so no
    exception is raised.  The save that the model selector may trigger when
    its text is set writes back what was read. *)
Definition _load_history (s : QuickGPT) : QuickGPT :=
  match history_file s with
  | None => s
  | Some data =>
      let s1 := set_model (file_model data)
                  (set_messages (file_messages data) s) in
      foldl echo_turn s1 (last_n 10 (messages s1))
  end.

(** [QuickGPT.__init__] with the history file the previous run left. *)
Definition QuickGPT_start (DEBUG : bool) (DEFAULT_MODEL HOTKEY : string)
    (native : NativeResult) (kb : KeyboardLib) (disk : bool)
    (file : option HistoryFile) : QuickGPT :=
  register_hotkey HOTKEY native kb
    (_load_history
       (set_history_file file (QuickGPT_new DEBUG DEFAULT_MODEL disk))).

(** ** Rendering *)

(** [s.replace(old, new)] for a one-character [old]. *)
Fixpoint replace_char (old : ascii) (new : string) (s : string) : string :=
  match s with
  | EmptyString => EmptyString
  | String ch r =>
      if bool_decide (ch = old) then new +:+ replace_char old new r
      else String ch (replace_char old new r)
  end.

(** [html.escape(s)]: the ampersand first, then the angle brackets, then
    the two quotes. *)
Definition html_escape (s : string) : string :=
  replace_char "'"%char "&#x27;"
    (replace_char "034"%char "&quot;"
       (replace_char ">"%char "&gt;"
          (replace_char "<"%char "&lt;"
             (replace_char "&"%char "&amp;" s)))).

(** [color_map.get(role, "#f1f1f1")] *)
Definition color_of (role : string) : string :=
  if bool_decide (role = "system") then "#FFB86C"
  else if bool_decide (role = "you") then "#80C7FF"
  else if bool_decide (role = "assistant") then "#C3E88D"
  else "#f1f1f1".

(** The text of a line as it goes into the markup. *)
Definition safe_text (text : string) : string :=
  replace_char "010"%char "<br>" (html_escape text).

(** The markup [_render_transcript] inserts for one line. *)
Definition html_line (l : Line) : string :=
  "<span style='color:" +:+ color_of (lower l.1)
  +:+ "; font-weight:600'>" +:+ html_escape l.1
  +:+ ":</span> <span style='color:#e8e8e8'>" +:+ safe_text l.2
  +:+ "</span><br><br>".

(** What the output widget holds after [_render_transcript]. *)
Definition rendered_html (s : QuickGPT) : list string :=
  map html_line (_render_transcript s).

(** ** The input of the popup *)

Inductive Key := Key_Return | Key_Enter | Key_Escape | Key_Other.

(** [ChatPopup._on_send] on the text of the input: the new text of the
    input and the application after the signal [submitted], when it is
    emitted. *)
Definition _on_send (input : string) (s : QuickGPT) : string * QuickGPT :=
  let text := strip input in
  if bool_decide (text = EmptyString) then (input, s)
  else (EmptyString, _handle_user_message text s).

(** [ChatPopup.eventFilter] for a key press on the input: whether the key
    is consumed, the text of the input and the application.  A key that is
    not consumed goes on to the widget. *)
Definition eventFilter (key : Key) (shift : bool) (input : string)
    (s : QuickGPT) : bool * (string * QuickGPT) :=
  match key with
  | Key_Return | Key_Enter =>
      if shift then (false, (input, s)) else (true, _on_send input s)
  | Key_Escape => (true, (input, hide_with_anim s))
  | Key_Other => (false, (input, s))
  end.

(** ** The native hotkey message *)

Definition WM_HOTKEY : Z := 0x0312.

(** [WinHotkeyFilter.nativeEventFilter] with the callback [_on_hotkey], on
    the type of the event and the fields [message] and [lParam] of the
    message; the event is never consumed. *)
Definition nativeEventFilter (etype : string) (message lParam : Z)
    (s : QuickGPT) : QuickGPT :=
  if bool_decide (etype <> "windows_generic_MSG") then s
  else if bool_decide (message = WM_HOTKEY)
       then _on_hotkey (Z.land lParam 0xFFFF)
              (Z.land (Z.shiftr lParam 16) 0xFFFF) s
       else s.

(** ** The rainbow border *)

(** [GradientBorderWidget.set_angle] *)
Definition set_angle (angle : Z) : Z := angle mod 360.

(** [ChatPopup._update_rainbow] on [_rainbow_angle]: its new value and the
    angle the border is left with. *)
Definition _update_rainbow (_rainbow_angle : Z) : Z * Z :=
  let angle := (_rainbow_angle + 5) mod 360 in (angle, set_angle angle).

(** [ChatPopup.start_rainbow], which resets the angle and updates once,
    followed by [n] ticks of the timer. *)
Definition rainbow_after (n : nat) : Z * Z :=
  Nat.iter n (fun st => _update_rainbow st.1) (_update_rainbow 0).

(** ** More vocabulary *)

(** The event that delivers a signal of the thread at position [i]. *)
Definition signal_event (i : nat) (sg : Signal) : Event :=
  match sg with
  | finished text => WorkerFinished i text
  | error msg => WorkerError i msg
  end.

(** The placeholder lines on screen. *)
Definition placeholders (t : list Line) : nat :=
  length (filter (fun l => is_placeholder l = true) t).

(** The file is what [_save_history] would write now, or there is no file
    yet and no turn is stored. *)
Definition written_through (s : QuickGPT) : Prop :=
  history_file s = Some (saved s)
  \/ (history_file s = None /\ messages s = []).

(** The disk never starts failing. *)
Definition disk_stays_ok (ev : Event) (s : QuickGPT) : bool :=
  match ev with
  | DiskWritable b => b
  | _ => true
  end.

Definition is_chat_role (m : ChatTurn) : Prop :=
  role m = "user" \/ role m = "assistant".

(** The shape of a request: the system turn, then at most 20 user and
    assistant turns, a user turn last. *)
Definition well_formed_request (w : Worker) : Prop :=
  exists turns text,
    worker_messages w = SYSTEM_TURN :: turns ++ [user_turn text]
    /\ Forall is_chat_role turns
    /\ (length turns < 20)%nat.

(** The line of the transcript that echoes a stored turn. *)
Definition echo_line (m : ChatTurn) : option Line :=
  if bool_decide (role m = "user") then Some ("You", content m)
  else if bool_decide (role m = "assistant")
       then Some ("Assistant", content m)
       else None.

(** The characters of a string. *)
Definition chars (s : string) : list ascii := list_ascii_of_string s.

(** Only chat turns are stored and only well-formed requests are out. *)
Definition chat_only (s : QuickGPT) : Prop :=
  Forall is_chat_role (messages s) /\ Forall well_formed_request (threads s).

(** Nothing but white space. *)
Definition blank (s : string) : Prop :=
  Forall (fun c => isspace c = true) (chars s).

(** The message of [Worker.run] for a missing key. *)
Definition MISSING_KEY : string :=
  "OPENAI_API_KEY is not set. Set it in your environment or a .env file.".

(** The worker a submission of [text] starts in the state [s]. *)
Definition worker_for (text : string) (s : QuickGPT) : Worker :=
  {| worker_messages :=
       SYSTEM_TURN :: last_n 20 (messages s ++ [user_turn text]);
     worker_model := model s |}.

(** ** The popup while its animations run

    [hide_with_anim] does not hide the popup: it starts an animation of 140
    ms whose signal [finished] hides it, and [_toggle_popup] does not call
    [tray.toggle]: it posts the call with a timer.  Until then
    [isVisible()] still answers true and the input still takes keys.  Here
    the application comes with the hide animation that may be running and
    the number of calls posted; the handlers of the same names are the
    calls as the source makes them. *)
Module Animated.

Record Gui := {
  app : QuickGPT;
  hide_running : bool;
  toggles_posted : nat
}.

(** A handler that touches neither the animation nor the timer. *)
Definition on_app (f : QuickGPT -> QuickGPT) (g : Gui) : Gui :=
  {| app := f (app g); hide_running := hide_running g;
     toggles_posted := toggles_posted g |}.

(** The slot of [finished] of the hide animation: [self.hide()]. *)
Definition hide_finished (g : Gui) : Gui :=
  {| app := set_popup_isVisible false (app g); hide_running := false;
     toggles_posted := toggles_posted g |}.

(** [ChatPopup.show_bottom_right]: the animation that runs is stopped, so
    that a hide on its way never completes; the popup is shown and its
    input takes the focus. *)
Definition show_bottom_right (g : Gui) : Gui :=
  {| app := set_input_hasFocus true (set_popup_isVisible true (app g));
     hide_running := false; toggles_posted := toggles_posted g |}.

(** [ChatPopup.hide_with_anim]: the animation that runs is stopped and the
    hide animation is started. *)
Definition hide_with_anim (g : Gui) : Gui :=
  {| app := app g; hide_running := true;
     toggles_posted := toggles_posted g |}.

(** [SystemTray.toggle] *)
Definition SystemTray_toggle (g : Gui) : Gui :=
  if popup_isVisible (app g) then hide_with_anim g else show_bottom_right g.

(** [QuickGPT._toggle_popup]: [QTimer.singleShot(0, self.tray.toggle)]
    posts the call. *)
Definition _toggle_popup (g : Gui) : Gui :=
  if working (app g) && popup_isVisible (app g)
  then on_app (fun s => if debug s
                        then _append_system
                               "[debug] Toggle blocked while working" s
                        else s) g
  else {| app := app g; hide_running := hide_running g;
          toggles_posted := S (toggles_posted g) |}.

(** The timer fires: one posted call of [tray.toggle] is made. *)
Definition timer_fired (g : Gui) : Gui :=
  SystemTray_toggle
    {| app := app g; hide_running := hide_running g;
       toggles_posted := Nat.pred (toggles_posted g) |}.

(** [QuickGPT._on_hotkey] *)
Definition _on_hotkey (mods vk : Z) (g : Gui) : Gui :=
  if popup_isVisible (app g) && input_hasFocus (app g)
     && bool_decide (Some vk ∈ [VK_MAP !! "enter"; VK_MAP !! "space"])
     && bool_decide (mods = 0)
  then on_app (fun s => if debug s
                        then _append_system
                               "[debug] Ignored hotkey while typing (bare Enter/Space)"
                               s
                        else s) g
  else
    _toggle_popup
      (on_app (fun s => if debug s
                        then _append_system
                               ("[debug] WM_HOTKEY fired mods=" +:+ str mods
                                +:+ " vk=" +:+ str vk) s
                        else s) g).

(** What the event loop handles: an event as before, the end of the hide
    animation, or the timer. *)
Inductive Step :=
| Ev (ev : Event)
| HideFinished
| TimerFired.

(** The slots; those that concern neither the popup nor the timer are the
    ones of [dispatch]. *)
Definition dispatch (st : Step) (g : Gui) : Gui :=
  match st with
  | Ev (Hotkey mods vk) => _on_hotkey mods vk g
  | Ev TrayToggle => SystemTray_toggle g
  | Ev KeyEscape => hide_with_anim g
  | Ev ClickClose => hide_with_anim g
  | Ev ev => on_app (dispatch ev) g
  | HideFinished => hide_finished g
  | TimerFired => timer_fired g
  end.

(** When the step can occur: the widgets of the popup take events while
    [isVisible()] holds, which it does until the hide animation has
    finished; [submitted] carries a non-empty text; an outcome needs a
    thread that has not reported; the hide animation finishes when it
    runs and the timer fires when a call is posted. *)
Definition enabled (st : Step) (g : Gui) : bool :=
  match st with
  | Ev (Hotkey _ _) | Ev TrayToggle | Ev (DiskWritable _) => true
  | Ev (Submitted text) =>
      popup_isVisible (app g) && negb (bool_decide (text = EmptyString))
  | Ev (WorkerFinished i _) | Ev (WorkerError i _) =>
      bool_decide (i < length (threads (app g)))%nat
  | Ev _ => popup_isVisible (app g)
  | HideFinished => hide_running g
  | TimerFired => bool_decide (0 < toggles_posted g)%nat
  end.

Definition run (steps : list Step) (g : Gui) : Gui :=
  foldl (fun st step => dispatch step st) g steps.

(** Every step of the run is enabled where it occurs and allowed by
    [policy] there. *)
Fixpoint admissible (policy : Step -> Gui -> bool)
    (steps : list Step) (g : Gui) : bool :=
  match steps with
  | [] => true
  | step :: rest =>
      enabled step g && policy step g
      && admissible policy rest (dispatch step g)
  end.




(** The posted call is made and the animation has run. *)
Definition settle (g : Gui) : Gui :=
  let g1 := if bool_decide (0 < toggles_posted g)%nat
            then timer_fired g else g in
  if hide_running g1 then hide_finished g1 else g1.

(** A first launch, nothing running and nothing posted. *)
Definition fresh : Gui :=
  {| app := fresh; hide_running := false; toggles_posted := 0 |}.

End Animated.

(** A text of ASCII characters, on which [strip] is what Python does. *)
Definition ascii_text (s : string) : Prop :=
  Forall (fun c => (N_of_ascii c < 128)%N) (chars s).

(** * Properties *)

Example VK_MAP_space : VK_MAP !! "space" = Some 32.
Proof. vm_compute. reflexivity. Qed.

Example VK_MAP_f24 : VK_MAP !! "f24" = Some 0x87.
Proof. vm_compute. reflexivity. Qed.

Example VK_MAP_a : VK_MAP !! "a" = Some 65.
Proof. vm_compute. reflexivity. Qed.

Example VK_MAP_banana : VK_MAP !! "banana" = None.
Proof. vm_compute. reflexivity. Qed.

Example parse_default : parse_hotkey "ctrl+alt+space" = (3, Some 32).
Proof. vm_compute. reflexivity. Qed.

Example parse_spaced : parse_hotkey " Ctrl + Shift+ G " = (6, Some 71).
Proof. vm_compute. reflexivity. Qed.

Example parse_trailing_plus : parse_hotkey "win++f5+" = (8, Some 0x74).
Proof. vm_compute. reflexivity. Qed.

(** ** What the handlers leave alone *)

(** Reduces the projections of an updated record and nothing else. *)
Ltac fields :=
  cbn [debug working show_system transcript model messages _native_ok
       _active_worker popup_isVisible input_hasFocus threads history_file
       disk_ok set_working set_show_system set_transcript set_model
       set_messages set_native_ok set_active_worker set_popup_isVisible
       set_input_hasFocus set_threads set_history_file set_disk_ok] in *.

(** Unfolds a handler down to the record, splitting on the flags it
    tests. *)
Ltac handler :=
  unfold _on_hotkey, _toggle_popup, SystemTray_toggle, show_bottom_right,
    hide_with_anim, _handle_user_message, _ask_assistant, _on_reply,
    _on_error, _on_model_changed, _clear_chat, _toggle_system,
    _save_history, _append_user, _append_assistant, _append_system,
    _append_line, _remove_last_system_placeholder;
  repeat match goal with
         | |- context [if ?b then _ else _] => destruct b eqn:?
         end;
  fields.

Lemma on_hotkey_working mods vk s :
  working (_on_hotkey mods vk s) = working s.
Proof. handler; reflexivity. Qed.

Lemma on_hotkey_threads mods vk s :
  threads (_on_hotkey mods vk s) = threads s.
Proof. handler; reflexivity. Qed.

Lemma on_hotkey_messages mods vk s :
  messages (_on_hotkey mods vk s) = messages s.
Proof. handler; reflexivity. Qed.

(** ** Runs of the event loop *)

Section Runs.
Variable policy : Event -> QuickGPT -> bool.
Variable Inv : QuickGPT -> Prop.
Hypothesis Inv_step : forall ev s,
  enabled ev s = true -> policy ev s = true -> Inv s -> Inv (dispatch ev s).

Lemma run_cons ev evs s : run (ev :: evs) s = run evs (dispatch ev s).
Proof. reflexivity. Qed.

Lemma admissible_cons ev evs s :
  admissible policy (ev :: evs) s = true ->
  enabled ev s = true /\ policy ev s = true
  /\ admissible policy evs (dispatch ev s) = true.
Proof.
  cbn [admissible]. rewrite !andb_true_iff. tauto.
Qed.

Lemma admissible_take k evs s :
  admissible policy evs s = true ->
  admissible policy (take k evs) s = true.
Proof.
  revert k s. induction evs as [|ev evs IH]; intros [|k] s Hadm;
    try reflexivity.
  apply admissible_cons in Hadm as (Hen & Hpol & Hrest).
  cbn [take admissible]. rewrite Hen, Hpol. cbn [andb]. auto.
Qed.

Lemma run_invariant evs s :
  Inv s -> admissible policy evs s = true -> Inv (run evs s).
Proof.
  revert s. induction evs as [|ev evs IH]; intros s Hinv Hadm.
  - exact Hinv.
  - apply admissible_cons in Hadm as (Hen & Hpol & Hrest).
    rewrite run_cons. apply IH; auto.
Qed.
End Runs.

(** ** One request at a time *)

Lemma exclusive_step ev s :
  enabled ev s = true -> submit_when_idle ev s = true ->
  exclusive s -> exclusive (dispatch ev s).
Proof.
  intros Hen Hpol [Hidle Hone]. unfold exclusive.
  destruct ev; cbn [dispatch enabled submit_when_idle] in *.
  - rewrite on_hotkey_working, on_hotkey_threads. auto.
  - handler; auto.
  - handler; auto.
  - handler; auto.
  - apply negb_true_iff in Hpol.
    pose proof (Hidle Hpol) as Hth.
    handler; rewrite Hth; split; (discriminate || (cbn; lia)).
  - apply bool_decide_eq_true in Hen.
    destruct (threads s) as [|w [|w' ws]] eqn:Hth; cbn in Hen, Hone; try lia.
    assert (i = 0%nat) as -> by lia.
    handler; rewrite ?Hth; cbn; auto.
  - apply bool_decide_eq_true in Hen.
    destruct (threads s) as [|w [|w' ws]] eqn:Hth; cbn in Hen, Hone; try lia.
    assert (i = 0%nat) as -> by lia.
    handler; rewrite ?Hth; cbn; auto.
  - handler; auto.
  - handler; auto.
  - handler; auto.
  - fields. auto.
  - fields. auto.
Qed.

(** When every submission is made while [working] is down, at most one
    request thread is out at every instant of the run: the second thread
    comes from a submission during a request and from nothing else. *)
Theorem one_request_when_submits_wait (s0 : QuickGPT) (evs : list Event)
    (k : nat) :
  working s0 = false -> threads s0 = [] ->
  admissible submit_when_idle evs s0 = true ->
  (length (threads (run (take k evs) s0)) <= 1)%nat.
Proof.
  intros Hidle Hnone Hadm.
  apply (run_invariant submit_when_idle exclusive exclusive_step
           (take k evs) s0).
  - split; [auto | rewrite Hnone; cbn; lia].
  - apply admissible_take, Hadm.
Qed.

Lemma one_request_when_submits_wait_witness :
  (length (threads
     (run (take 4 [Hotkey 3 32; Submitted "hi"; WorkerFinished 0 "hello";
                   Submitted "more"; WorkerError 0 "timeout"]) fresh))
   <= 1)%nat.
Proof.
  apply (one_request_when_submits_wait fresh
           [Hotkey 3 32; Submitted "hi"; WorkerFinished 0 "hello";
            Submitted "more"; WorkerError 0 "timeout"] 4);
    vm_compute; reflexivity.
Defined.

(** C1: the code does not hold a second submission back.  At show,
    submit, submit, the second submission finds [working] up and one
    request out and starts a second thread; the one slot [_active_worker]
    then refers to the second worker only, and the outcome of the first
    request brings [working] down and empties the slot while the second
    request is still out. *)
Lemma second_submit_starts_second_request :
  let evs := [Hotkey 3 32; Submitted "first"] in
  let s := run evs fresh in
  let s2 := dispatch (Submitted "second") s in
  let s3 := dispatch (WorkerFinished 0 "reply") s2 in
  admissible any_event
    (evs ++ [Submitted "second"; WorkerFinished 0 "reply"]) fresh = true
  /\ working s = true
  /\ length (threads s) = 1%nat
  /\ length (threads s2) = 2%nat
  /\ ~ (length (threads (run (evs ++ [Submitted "second"]) fresh)) <= 1)%nat
  /\ _active_worker s2 = last (threads s2)
  /\ _active_worker s2 <> head (threads s2)
  /\ working s3 = false
  /\ length (threads s3) = 1%nat
  /\ _active_worker s3 = None.
Proof.
  vm_compute. repeat split; try reflexivity.
  - intros H. apply Nat.leb_le in H. discriminate H.
  - discriminate.
Qed.

(** ** The toggle while a request is out *)






(** ** Turns kept after a failure *)

Lemma handle_user_message_messages text s :
  messages (_handle_user_message text s) = messages s ++ [user_turn text].
Proof. handler; reflexivity. Qed.

Lemma on_error_messages err s : messages (_on_error err s) = messages s.
Proof. handler; reflexivity. Qed.

(** C4, as amended: over every run of submissions and failures the stored
    turns grow by exactly the submitted texts as user turns, in order; a
    failure removes none, so the request after it carries the unanswered
    user turn directly followed by the new one. *)
Theorem failures_keep_user_turns (s0 : QuickGPT) (evs : list Event) :
  admissible submit_or_failure evs s0 = true ->
  messages (run evs s0)
  = messages s0 ++ map user_turn (submitted_texts evs).
Proof.
  revert s0. induction evs as [|ev evs IH]; intros s0 Hadm.
  - cbn. rewrite app_nil_r. reflexivity.
  - apply admissible_cons in Hadm as (_ & Hpol & Hrest).
    rewrite run_cons, (IH _ Hrest).
    destruct ev; cbn [submit_or_failure] in Hpol; try discriminate Hpol;
      cbn [dispatch submitted_texts omap list_omap map].
    + rewrite handle_user_message_messages, <- app_assoc. reflexivity.
    + rewrite on_error_messages. fields. reflexivity.
Qed.

Lemma failures_keep_user_turns_witness :
  messages
    (run [Submitted "a"; WorkerError 0 "timeout"; Submitted "b"]
         (show_bottom_right fresh))
  = messages (show_bottom_right fresh)
    ++ map user_turn
         (submitted_texts
            [Submitted "a"; WorkerError 0 "timeout"; Submitted "b"]).
Proof.
  apply (failures_keep_user_turns (show_bottom_right fresh)
           [Submitted "a"; WorkerError 0 "timeout"; Submitted "b"]).
  vm_compute. reflexivity.
Defined.

(** C4, as stated, fails: the user turn of the failed request stays in
    [messages], and the next request carries it directly followed by the
    new user turn. *)
Lemma consecutive_user_turns_sent_upstream :
  let evs := [Hotkey 3 32; Submitted "a"; WorkerError 0 "timeout";
              Submitted "b"] in
  admissible any_event evs fresh = true
  /\ worker_messages <$> last (threads (run evs fresh))
     = Some [SYSTEM_TURN; user_turn "a"; user_turn "b"]
  /\ (last (threads (run evs fresh))
      ≫= fun w => (Worker_run (Some "sk-test") (fun _ => Completion None) w).1)
     = Some {| request_model := "gpt-5";
               request_messages :=
                 [SYSTEM_TURN; user_turn "a"; user_turn "b"] |}.
Proof. vm_compute. repeat split; reflexivity. Qed.

(** ** The request sent upstream *)

Lemma last_n_suffix {A} (n : nat) (l : list A) : last_n n l `suffix_of` l.
Proof. apply suffix_drop. Qed.

Lemma last_n_length {A} (n : nat) (l : list A) :
  length (last_n n l) = Nat.min n (length l).
Proof. unfold last_n. rewrite length_drop. lia. Qed.

(** C5: the worker started by a submission gets, and with a key present
    sends, the system turn followed by the last 20 stored turns, the new
    user turn included, in their stored order; 21 entries at most. *)
Theorem upstream_is_system_plus_last_20 (text : string) (s : QuickGPT) :
  let s' := _handle_user_message text s in
  exists w : Worker,
    threads s' = threads s ++ [w]
    /\ _active_worker s' = Some w
    /\ messages s' = messages s ++ [user_turn text]
    /\ worker_model w = model s
    /\ worker_messages w = SYSTEM_TURN :: last_n 20 (messages s')
    /\ (forall c key remote,
          (Worker_run (Some (String c key)) remote w).1
          = Some {| request_model := model s;
                    request_messages :=
                      SYSTEM_TURN :: last_n 20 (messages s') |})
    /\ last_n 20 (messages s') `suffix_of` messages s'
    /\ length (last_n 20 (messages s')) = Nat.min 20 (length (messages s'))
    /\ (length (worker_messages w) <= 21)%nat.
Proof.
  cbn zeta.
  exists {| worker_messages :=
              SYSTEM_TURN :: last_n 20 (messages s ++ [user_turn text]);
            worker_model := model s |}.
  rewrite handle_user_message_messages.
  repeat split.
  - handler; reflexivity.
  - handler; reflexivity.
  - apply last_n_suffix.
  - apply last_n_length.
  - cbn [worker_messages length]. rewrite last_n_length. lia.
Qed.

(** ** A submission answered *)

Lemma on_reply_messages reply s :
  messages (_on_reply reply s) = messages s ++ [assistant_turn reply].
Proof. handler; reflexivity. Qed.

Lemma save_history_persisted s :
  disk_ok s = true ->
  history_file (_save_history s) = Some (saved (_save_history s)).
Proof. intros Hd. unfold _save_history. rewrite Hd. reflexivity. Qed.

Lemma save_history_disk_ok s : disk_ok (_save_history s) = disk_ok s.
Proof. unfold _save_history. destruct (disk_ok s) eqn:Hd; exact Hd. Qed.

Lemma handle_user_message_persisted text s :
  disk_ok s = true ->
  history_file (_handle_user_message text s)
  = Some (saved (_handle_user_message text s)).
Proof.
  intros Hd. unfold _handle_user_message.
  set (s1 := _append_user text _).
  assert (disk_ok s1 = true) as Hd1 by (destruct (debug s); exact Hd).
  change (history_file (_save_history s1) = Some (saved (_save_history s1))).
  apply save_history_persisted, Hd1.
Qed.

Lemma handle_user_message_disk_ok text s :
  disk_ok (_handle_user_message text s) = disk_ok s.
Proof.
  unfold _handle_user_message.
  set (s1 := _append_user text _).
  change (disk_ok (_save_history s1) = disk_ok s).
  rewrite save_history_disk_ok. destruct (debug s); reflexivity.
Qed.

Lemma on_reply_persisted reply s :
  disk_ok s = true ->
  history_file (_on_reply reply s) = Some (saved (_on_reply reply s)).
Proof.
  intros Hd. unfold _on_reply.
  set (s1 := _append_assistant reply _).
  change (history_file (_save_history s1) = Some (saved (_save_history s1))).
  apply save_history_persisted. exact Hd.
Qed.

(** C6: after the submission of [x] and the success outcome [y] the stored
    turns end with the user turn [x] and the assistant turn [y], and after
    each of the two appends the history file holds exactly the stored
    turns (and the model), the write having gone through. *)
Theorem reply_is_stored_and_persisted (x y : string) (i : nat)
    (s : QuickGPT) :
  disk_ok s = true ->
  let s1 := dispatch (Submitted x) s in
  let s2 := dispatch (WorkerFinished i y) s1 in
  messages s2 = messages s ++ [user_turn x; assistant_turn y]
  /\ history_file s1
     = Some {| file_messages := messages s1; file_model := model s1 |}
  /\ history_file s2
     = Some {| file_messages := messages s2; file_model := model s2 |}.
Proof.
  intros Hd s1 s2.
  assert (s1 = _handle_user_message x s) as Es1 by reflexivity.
  assert (s2 = _on_reply y (set_threads (delete i (threads s1)) s1)) as Es2
    by reflexivity.
  clearbody s1 s2.
  assert (disk_ok s1 = true) as Hd1
    by (rewrite Es1, handle_user_message_disk_ok; exact Hd).
  split; [|split].
  - rewrite Es2, on_reply_messages.
    change (messages (set_threads (delete i (threads s1)) s1))
      with (messages s1).
    rewrite Es1, handle_user_message_messages, <- app_assoc. reflexivity.
  - rewrite Es1. apply handle_user_message_persisted, Hd.
  - rewrite Es2. apply on_reply_persisted. exact Hd1.
Qed.

Lemma reply_is_stored_and_persisted_witness :
  let s := show_bottom_right fresh in
  let s1 := dispatch (Submitted "x") s in
  let s2 := dispatch (WorkerFinished 0 "y") s1 in
  messages s2 = messages s ++ [user_turn "x"; assistant_turn "y"]
  /\ history_file s1
     = Some {| file_messages := messages s1; file_model := model s1 |}
  /\ history_file s2
     = Some {| file_messages := messages s2; file_model := model s2 |}.
Proof.
  apply (reply_is_stored_and_persisted "x" "y" 0 (show_bottom_right fresh)).
  vm_compute. reflexivity.
Defined.

(** ** The placeholder and the failure outcome *)

Lemma is_placeholder_true l :
  is_placeholder l = true <-> l = ("System", PLACEHOLDER).
Proof.
  unfold is_placeholder. rewrite andb_true_iff, !bool_decide_eq_true.
  destruct l as [who txt]. cbn [fst snd]. split.
  - intros [-> ->]. reflexivity.
  - intros [= -> ->]. split; reflexivity.
Qed.

(** Without a placeholder among the lines the loop visits, the list is
    left as it is. *)
Lemma remove_placeholder_none k t :
  Forall (fun l => is_placeholder l = false) t ->
  remove_placeholder_from k t = t.
Proof.
  intros Hnone. induction k as [|i IH]; [reflexivity|].
  cbn [remove_placeholder_from].
  destruct (t !! i) as [l|] eqn:Hl; [|exact IH].
  rewrite Forall_forall in Hnone.
  rewrite (Hnone l) by (eapply list_elem_of_lookup_2, Hl). exact IH.
Qed.

(** The loop deletes the placeholder that no other follows. *)
Lemma remove_placeholder_last k a l b :
  is_placeholder l = true ->
  Forall (fun l' => is_placeholder l' = false) b ->
  (length a < k <= length (a ++ l :: b))%nat ->
  remove_placeholder_from k (a ++ l :: b) = a ++ b.
Proof.
  intros Hl Hb. induction k as [|i IH]; intros Hk; [lia|].
  cbn [remove_placeholder_from].
  rewrite length_app in Hk. cbn [length] in Hk.
  destruct (decide (i = length a)) as [->|Hne].
  - rewrite list_lookup_middle by reflexivity. rewrite Hl.
    rewrite delete_middle. reflexivity.
  - assert (exists l', (a ++ l :: b) !! i = Some l'
                        /\ is_placeholder l' = false) as (l' & Hl' & Hnp).
    { destruct (lookup_lt_is_Some_2 (a ++ l :: b) i) as [l' Hl'].
      { rewrite length_app. cbn [length]. lia. }
      exists l'. split; [exact Hl'|].
      rewrite lookup_app_r in Hl' by lia.
      destruct (i - length a)%nat as [|j] eqn:Hj; [lia|].
      cbn in Hl'. rewrite Forall_forall in Hb. apply Hb.
      eapply list_elem_of_lookup_2, Hl'. }
    rewrite Hl', Hnp. apply IH. rewrite length_app. cbn [length]. lia.
Qed.

(** Every transcript either has a last placeholder or has none. *)
Lemma last_placeholder_split (t : list Line) :
  (exists a b, t = a ++ ("System", PLACEHOLDER) :: b
               /\ Forall (fun l => is_placeholder l = false) b)
  \/ Forall (fun l => is_placeholder l = false) t.
Proof.
  induction t as [|l t IH].
  - right. constructor.
  - destruct IH as [(a & b & -> & Hb)|Hnone].
    + left. exists (l :: a), b. split; [reflexivity | exact Hb].
    + destruct (is_placeholder l) eqn:Hl.
      * left. exists [], t. apply is_placeholder_true in Hl. subst l.
        split; [reflexivity | exact Hnone].
      * right. constructor; [exact Hl | exact Hnone].
Qed.

Lemma on_error_transcript err s :
  transcript (_on_error err s)
  = remove_placeholder_from (length (transcript s)) (transcript s)
    ++ [error_line err].
Proof. reflexivity. Qed.

Lemma placeholder_is_placeholder :
  is_placeholder ("System", PLACEHOLDER) = true.
Proof. apply is_placeholder_true. reflexivity. Qed.

(** C7: a failure outcome appends no turn (so no assistant turn), brings
    [working] down, starts no thread and forgets the worker, writes no
    file, deletes the last placeholder line when there is one, and adds
    the one error line at the end of the transcript. *)
Theorem failure_outcome (err : string) (s : QuickGPT) :
  let s' := _on_error err s in
  messages s' = messages s
  /\ working s' = false
  /\ threads s' = threads s
  /\ _active_worker s' = None
  /\ history_file s' = history_file s
  /\ ((exists a b,
         transcript s = a ++ ("System", PLACEHOLDER) :: b
         /\ Forall (fun l => is_placeholder l = false) b
         /\ transcript s' = a ++ b ++ [error_line err])
      \/ (Forall (fun l => is_placeholder l = false) (transcript s)
          /\ transcript s' = transcript s ++ [error_line err]))
  /\ transcript (_on_error err (_ask_assistant s))
     = transcript s ++ [error_line err].
Proof.
  cbn zeta. repeat split.
  - rewrite on_error_transcript.
    destruct (last_placeholder_split (transcript s))
      as [(a & b & Ht & Hb)|Hnone].
    + left. exists a, b. repeat split; [exact Ht | exact Hb |].
      rewrite Ht, remove_placeholder_last, <- app_assoc;
        [reflexivity | apply placeholder_is_placeholder | exact Hb | ].
      rewrite !length_app. cbn [length]. lia.
    + right. split; [exact Hnone|].
      rewrite remove_placeholder_none by exact Hnone. reflexivity.
  - rewrite on_error_transcript.
    change (transcript (_ask_assistant s))
      with (transcript s ++ [("System", PLACEHOLDER)]).
    rewrite remove_placeholder_last, app_nil_r;
      [reflexivity | apply placeholder_is_placeholder | constructor | ].
    rewrite !length_app. cbn [length]. lia.
Qed.

(** ** Parsing a hotkey specification *)

Lemma parse_parts_snoc parts p :
  parse_parts (parts ++ [p]) = parse_step (parse_parts parts) p.
Proof. unfold parse_parts. rewrite foldl_app. reflexivity. Qed.

(** A bit of [mods] is set exactly when a modifier token brings it. *)
Lemma parse_parts_mods parts n :
  Z.testbit (parse_parts parts).1 n = true
  <-> exists p flag, p ∈ parts /\ modifier_flag p = Some flag
                     /\ Z.testbit flag n = true.
Proof.
  induction parts as [|p parts IH] using rev_ind.
  - cbn. rewrite Z.testbit_0_l. split; [discriminate|].
    intros (p & flag & Hin & _). inversion Hin.
  - rewrite parse_parts_snoc. unfold parse_step.
    destruct (modifier_flag p) as [flag|] eqn:Hp; cbn [fst].
    + rewrite Z.lor_spec, orb_true_iff, IH. split.
      * intros [(q & f & Hin & Hq & Hbit)|Hbit].
        -- exists q, f. rewrite elem_of_app. auto.
        -- exists p, flag. rewrite elem_of_app, list_elem_of_singleton. auto.
      * intros (q & f & Hin & Hq & Hbit).
        rewrite elem_of_app, list_elem_of_singleton in Hin.
        destruct Hin as [Hin| ->].
        -- left. eauto.
        -- right. congruence.
    + rewrite IH. split.
      * intros (q & f & Hin & Hq & Hbit).
        exists q, f. rewrite elem_of_app. auto.
      * intros (q & f & Hin & Hq & Hbit).
        rewrite elem_of_app, list_elem_of_singleton in Hin.
        destruct Hin as [Hin| ->]; [eauto | congruence].
Qed.

(** The base key is looked up for the last token that is no modifier. *)
Lemma parse_parts_key parts :
  (parse_parts parts).2
  = last (filter (fun p => modifier_flag p = None) parts)
      ≫= (fun p => VK_MAP !! p).
Proof.
  induction parts as [|p parts IH] using rev_ind; [reflexivity|].
  rewrite parse_parts_snoc, filter_app. unfold parse_step.
  destruct (modifier_flag p) as [flag|] eqn:Hp; cbn [snd].
  - rewrite filter_cons_False by (rewrite Hp; discriminate).
    rewrite filter_nil, app_nil_r. exact IH.
  - rewrite filter_cons_True by exact Hp.
    rewrite filter_nil, last_snoc. reflexivity.
Qed.

(** Once a later token is no modifier, the key held before is of no
    consequence. *)
Lemma foldl_parse_step_key_overwritten post mods k1 k2 :
  Exists (fun q => modifier_flag q = None) post ->
  foldl parse_step (mods, k1) post = foldl parse_step (mods, k2) post.
Proof.
  revert mods. induction post as [|q post IH]; intros mods Hex.
  - inversion Hex.
  - cbn [foldl]. unfold parse_step at 2 4. cbn [fst snd].
    destruct (modifier_flag q) as [flag|] eqn:Hq; [|reflexivity].
    apply IH. inversion Hex as [? ? Hq'|]; [congruence | assumption].
Qed.

Lemma parse_parts_drop_unresolved pre t post :
  modifier_flag t = None -> VK_MAP !! t = None ->
  Exists (fun q => modifier_flag q = None) post ->
  parse_parts (pre ++ t :: post) = parse_parts (pre ++ post).
Proof.
  intros Ht Hvk Hex. unfold parse_parts. rewrite !foldl_app. cbn [foldl].
  destruct (foldl parse_step (0, None) pre) as [mods k].
  unfold parse_step at 2. rewrite Ht. cbn [fst].
  apply foldl_parse_step_key_overwritten, Hex.
Qed.

Lemma register_hotkey_invalid HOTKEY native kb st :
  (parse_hotkey HOTKEY).2 = None ->
  _native_ok (register_hotkey HOTKEY native kb st) = false
  /\ ("System",
      "Invalid QUICKGPT_HOTKEY '" +:+ HOTKEY
      +:+ "'. Example: ctrl+alt+space or ctrl+shift+g")
     ∈ transcript (register_hotkey HOTKEY native kb st).
Proof.
  intros Hkey. unfold register_hotkey. cbn zeta. rewrite Hkey.
  change (_native_ok (_append_system _ (set_native_ok false st)))
    with false.
  cbn match.
  destruct kb; (split; [reflexivity|]);
    unfold _append_system, _append_line; fields;
    rewrite !elem_of_app, !list_elem_of_singleton; auto.
Qed.

(** C8, as amended: the modifier tokens are ORed into [mods] and the base
    key is the table entry of the last token that is no modifier.  An
    unresolved token is dropped without effect when a later token is no
    modifier; a specification left without a base key is reported as
    invalid and not registered natively; the default specification gives
    control, alt and the space key. *)
Theorem parse_hotkey_takes_last_base_token :
  (forall s n,
     Z.testbit (parse_hotkey s).1 n = true
     <-> exists p flag, p ∈ hotkey_parts s /\ modifier_flag p = Some flag
                        /\ Z.testbit flag n = true)
  /\ (forall s,
        (parse_hotkey s).2
        = last (filter (fun p => modifier_flag p = None) (hotkey_parts s))
            ≫= (fun p => VK_MAP !! p))
  /\ (forall s s' pre t post,
        hotkey_parts s = pre ++ t :: post ->
        hotkey_parts s' = pre ++ post ->
        modifier_flag t = None -> VK_MAP !! t = None ->
        Exists (fun q => modifier_flag q = None) post ->
        parse_hotkey s = parse_hotkey s')
  /\ (forall HOTKEY native kb st,
        (parse_hotkey HOTKEY).2 = None ->
        _native_ok (register_hotkey HOTKEY native kb st) = false
        /\ ("System",
            "Invalid QUICKGPT_HOTKEY '" +:+ HOTKEY
            +:+ "'. Example: ctrl+alt+space or ctrl+shift+g")
           ∈ transcript (register_hotkey HOTKEY native kb st))
  /\ parse_hotkey "banana" = (0, None)
  /\ parse_hotkey EmptyString = (0, None)
  /\ parse_hotkey "ctrl+alt+space" = (Z.lor MOD_CONTROL MOD_ALT, Some 0x20)
  /\ VK_MAP !! "space" = Some 0x20.
Proof.
  split; [|split; [|split; [|split]]].
  - intros s n. apply parse_parts_mods.
  - intros s. apply parse_parts_key.
  - intros s s' pre t post Hs Hs' Ht Hvk Hex. unfold parse_hotkey.
    rewrite Hs, Hs'. apply parse_parts_drop_unresolved; assumption.
  - apply register_hotkey_invalid.
  - vm_compute. repeat split; reflexivity.
Qed.

Lemma parse_hotkey_takes_last_base_token_witness :
  parse_hotkey "ctrl+banana+space" = parse_hotkey "ctrl+space"
  /\ _native_ok
       (QuickGPT_init false "gpt-5" "banana" RegisterOk KeyboardMissing true)
     = false.
Proof.
  destruct parse_hotkey_takes_last_base_token
    as (_ & _ & Hdrop & Hreject & _).
  split.
  - apply (Hdrop "ctrl+banana+space" "ctrl+space" ["ctrl"] "banana"
             ["space"]).
    + vm_compute. reflexivity.
    + vm_compute. reflexivity.
    + vm_compute. reflexivity.
    + vm_compute. reflexivity.
    + constructor. vm_compute. reflexivity.
  - apply (Hreject "banana" RegisterOk KeyboardMissing
             (QuickGPT_new false "gpt-5" true)).
    vm_compute. reflexivity.
Defined.

(** C8, as stated, fails: a token that is not in the symbol table and
    comes after the base key is not dropped; it clears the key, and the
    specification is reported as invalid. *)
Lemma unresolved_last_token_clears_base_key :
  hotkey_parts "ctrl+space+banana" = ["ctrl"; "space"; "banana"]
  /\ modifier_flag "banana" = None
  /\ VK_MAP !! "banana" = None
  /\ parse_hotkey "ctrl+space" = (MOD_CONTROL, Some 0x20)
  /\ parse_hotkey "ctrl+space+banana" = (MOD_CONTROL, None)
  /\ parse_hotkey "ctrl+space+banana" <> parse_hotkey "ctrl+space".
Proof. vm_compute. repeat split; try reflexivity. discriminate. Qed.

(** ** Clearing the history *)

Lemma clear_chat_persisted s :
  disk_ok s = true ->
  history_file (_clear_chat s) = Some (saved (_clear_chat s)).
Proof.
  intros Hd. unfold _clear_chat.
  set (s1 := _append_system _ _).
  change (history_file (_save_history s1) = Some (saved (_save_history s1))).
  apply save_history_persisted. exact Hd.
Qed.

Lemma clear_chat_messages s : messages (_clear_chat s) = [].
Proof.
  unfold _clear_chat, _save_history.
  destruct (disk_ok _); reflexivity.
Qed.

Lemma clear_chat_model s : model (_clear_chat s) = model s.
Proof.
  unfold _clear_chat, _save_history.
  destruct (disk_ok _); reflexivity.
Qed.

Lemma clear_chat_transcript s :
  transcript (_clear_chat s) = [("System", "History cleared.")].
Proof.
  unfold _clear_chat, _save_history.
  destruct (disk_ok _); reflexivity.
Qed.

(** C9, as amended: the clear command empties the stored turns, leaves
    the single line "History cleared." in the transcript, and rewrites the
    history file at once with an empty list of messages, the write having
    gone through. *)
Theorem clear_chat_effect (s : QuickGPT) :
  disk_ok s = true ->
  messages (_clear_chat s) = []
  /\ transcript (_clear_chat s) = [("System", "History cleared.")]
  /\ history_file (dispatch ClearClicked s)
     = Some {| file_messages := []; file_model := model s |}.
Proof.
  intros Hd. split; [|split].
  - apply clear_chat_messages.
  - apply clear_chat_transcript.
  - cbn [dispatch]. rewrite (clear_chat_persisted s Hd). unfold saved.
    rewrite clear_chat_messages, clear_chat_model. reflexivity.
Qed.

Lemma clear_chat_effect_witness :
  let s := run [Hotkey 3 32; Submitted "x"; WorkerFinished 0 "y"] fresh in
  messages (_clear_chat s) = []
  /\ transcript (_clear_chat s) = [("System", "History cleared.")]
  /\ history_file (dispatch ClearClicked s)
     = Some {| file_messages := []; file_model := model s |}.
Proof.
  apply (clear_chat_effect
           (run [Hotkey 3 32; Submitted "x"; WorkerFinished 0 "y"] fresh)).
  vm_compute. reflexivity.
Defined.

(** C9, as stated, fails: the transcript is not empty after the clear
    command, it holds the line that reports the clearing. *)
Lemma transcript_not_empty_after_clear :
  let s := run [Hotkey 3 32; Submitted "x"; WorkerFinished 0 "y";
                ClearClicked] fresh in
  messages s = []
  /\ transcript s = [("System", "History cleared.")]
  /\ transcript s <> [].
Proof. vm_compute. repeat split; try reflexivity. discriminate. Qed.

(** C10: the clear command leaves the model as it was, in the application
    object and in the file it rewrites, the write having gone through. *)
Theorem clear_chat_keeps_model (s : QuickGPT) :
  disk_ok s = true ->
  model (_clear_chat s) = model s
  /\ file_model <$> history_file (_clear_chat s) = Some (model s).
Proof.
  intros Hd. split.
  - apply clear_chat_model.
  - rewrite (clear_chat_persisted s Hd). unfold saved. cbn [fmap option_fmap option_map file_model].
    rewrite clear_chat_model. reflexivity.
Qed.

Lemma clear_chat_keeps_model_witness :
  let s := run [Hotkey 3 32; ModelChanged "o4-mini"; Submitted "x"] fresh in
  model (_clear_chat s) = model s
  /\ file_model <$> history_file (_clear_chat s) = Some (model s).
Proof.
  apply (clear_chat_keeps_model
           (run [Hotkey 3 32; ModelChanged "o4-mini"; Submitted "x"] fresh)).
  vm_compute. reflexivity.
Defined.

(** * Further properties of the code *)

(** ** Loading what was saved *)

Lemma echo_turn_line st m :
  echo_turn st m
  = match echo_line m with
    | Some l => set_transcript (transcript st ++ [l]) st
    | None => st
    end.
Proof.
  unfold echo_turn, echo_line.
  destruct (bool_decide (role m = "user")); [reflexivity|].
  destruct (bool_decide (role m = "assistant")); reflexivity.
Qed.

Lemma foldl_echo_turn turns st :
  foldl echo_turn st turns
  = set_transcript (transcript st ++ omap echo_line turns) st.
Proof.
  revert st. induction turns as [|m turns IH]; intros st.
  - destruct st. cbn. rewrite app_nil_r. reflexivity.
  - cbn [foldl omap list_omap]. rewrite IH, echo_turn_line.
    destruct (echo_line m) as [l|]; [|reflexivity].
    unfold set_transcript. fields. rewrite <- app_assoc. reflexivity.
Qed.

Lemma omap_echo_line_length turns :
  (length (omap echo_line turns) <= length turns)%nat.
Proof.
  induction turns as [|m turns IH]; cbn [omap list_omap length]; [lia|].
  destruct (echo_line m); cbn [length]; lia.
Qed.

Lemma load_history_fields s data :
  let s' := _load_history (set_history_file (Some data) s) in
  messages s' = file_messages data
  /\ model s' = file_model data
  /\ transcript s'
     = transcript s ++ omap echo_line (last_n 10 (file_messages data))
  /\ working s' = working s
  /\ threads s' = threads s
  /\ _native_ok s' = _native_ok s
  /\ history_file s' = Some data.
Proof.
  cbn zeta. unfold _load_history. fields. rewrite foldl_echo_turn.
  repeat split.
Qed.

Lemma register_hotkey_frame HOTKEY native kb s :
  let s' := register_hotkey HOTKEY native kb s in
  messages s' = messages s /\ model s' = model s
  /\ working s' = working s /\ threads s' = threads s
  /\ history_file s' = history_file s /\ disk_ok s' = disk_ok s
  /\ popup_isVisible s' = popup_isVisible s.
Proof.
  cbn zeta. unfold register_hotkey.
  destruct (parse_hotkey HOTKEY).2; destruct native; destruct kb;
    repeat split.
Qed.

(** X1: what [_save_history] wrote is what the next start reads back: the
    stored turns and the model are those of the state that was saved, no
    request is out and the file is untouched. *)
Theorem save_then_restart (s : QuickGPT) (DEBUG : bool)
    (DEFAULT_MODEL HOTKEY : string) (native : NativeResult)
    (kb : KeyboardLib) (disk : bool) :
  disk_ok s = true ->
  let s' := QuickGPT_start DEBUG DEFAULT_MODEL HOTKEY native kb disk
              (history_file (_save_history s)) in
  messages s' = messages s
  /\ model s' = model s
  /\ working s' = false
  /\ threads s' = []
  /\ history_file s' = history_file (_save_history s).
Proof.
  intros Hd. cbn zeta. unfold QuickGPT_start.
  rewrite (save_history_persisted s Hd).
  destruct (register_hotkey_frame HOTKEY native kb
              (_load_history
                 (set_history_file (Some (saved (_save_history s)))
                    (QuickGPT_new DEBUG DEFAULT_MODEL disk))))
    as (-> & -> & -> & -> & -> & _).
  destruct (load_history_fields (QuickGPT_new DEBUG DEFAULT_MODEL disk)
              (saved (_save_history s)))
    as (-> & -> & _ & -> & -> & _ & ->).
  unfold saved, _save_history. rewrite Hd. repeat split.
Qed.

Lemma save_then_restart_witness :
  let s := run [Hotkey 3 32; ModelChanged "o4-mini"; Submitted "x";
                WorkerFinished 0 "y"] fresh in
  let s' := QuickGPT_start false "gpt-5" "ctrl+alt+space" RegisterOk
              KeyboardMissing true (history_file (_save_history s)) in
  messages s' = messages s
  /\ model s' = model s
  /\ working s' = false
  /\ threads s' = []
  /\ history_file s' = history_file (_save_history s).
Proof.
  apply (save_then_restart
           (run [Hotkey 3 32; ModelChanged "o4-mini"; Submitted "x";
                 WorkerFinished 0 "y"] fresh)
           false "gpt-5" "ctrl+alt+space" RegisterOk KeyboardMissing true).
  vm_compute. reflexivity.
Defined.

(** X2: a start with a history file echoes the last ten stored turns into
    the transcript, in their order, user turns as "You" and assistant
    turns as "Assistant"; turns of another role are stored but not shown.
    At most ten lines come from the file, followed by the lines of the
    hotkey registration. *)
Theorem start_echoes_last_ten (DEBUG : bool) (DEFAULT_MODEL HOTKEY : string)
    (native : NativeResult) (kb : KeyboardLib) (disk : bool)
    (data : HistoryFile) :
  let s := QuickGPT_start DEBUG DEFAULT_MODEL HOTKEY native kb disk
             (Some data) in
  let echoed := omap echo_line (last_n 10 (file_messages data)) in
  messages s = file_messages data
  /\ model s = file_model data
  /\ echoed `prefix_of` transcript s
  /\ (length echoed <= 10)%nat
  /\ Forall (fun l : Line => l.1 = "System") (drop (length echoed) (transcript s)).
Proof.
  cbn zeta. unfold QuickGPT_start.
  destruct (register_hotkey_frame HOTKEY native kb
              (_load_history
                 (set_history_file (Some data)
                    (QuickGPT_new DEBUG DEFAULT_MODEL disk))))
    as (-> & -> & _).
  destruct (load_history_fields (QuickGPT_new DEBUG DEFAULT_MODEL disk) data)
    as (-> & -> & Ht & _).
  split; [reflexivity|]. split; [reflexivity|].
  set (echoed := omap echo_line (last_n 10 (file_messages data))) in *.
  change (transcript (QuickGPT_new DEBUG DEFAULT_MODEL disk)) with (@nil Line)
    in Ht.
  rewrite app_nil_l in Ht.
  set (s1 := _load_history _) in *.
  assert (length echoed <= 10)%nat as Hlen.
  { unfold echoed.
    pose proof (omap_echo_line_length (last_n 10 (file_messages data))).
    pose proof (last_n_length 10 (file_messages data)). lia. }
  assert (exists sys, transcript (register_hotkey HOTKEY native kb s1)
                      = echoed ++ sys
                      /\ Forall (fun l : Line => l.1 = "System") sys)
    as (sys & Hsys & Hall).
  { unfold register_hotkey, _append_system, _append_line.
    destruct (parse_hotkey HOTKEY).2; destruct native; destruct kb; fields;
      rewrite Ht, <- ?app_assoc; eexists; (split; [reflexivity|]);
      repeat constructor. }
  rewrite Hsys. split; [eexists; reflexivity|]. split; [exact Hlen|].
  rewrite drop_app_length. exact Hall.
Qed.

(** ** The filter on system lines *)

Lemma render_all (s : QuickGPT) :
  show_system s = true -> _render_transcript s = transcript s.
Proof.
  intros Hshow. unfold _render_transcript.
  induction (transcript s) as [|l t IH]; [reflexivity|].
  rewrite filter_cons_True by (rewrite Hshow; intros [? _]; discriminate).
  rewrite IH. reflexivity.
Qed.

Lemma render_filtered (s : QuickGPT) :
  show_system s = false ->
  _render_transcript s
  = filter (fun l : Line => l.1 <> "System") (transcript s).
Proof.
  intros Hshow. unfold _render_transcript.
  induction (transcript s) as [|l t IH]; [reflexivity|].
  destruct (decide (l.1 = "System")) as [Hsys|Hsys].
  - rewrite !filter_cons_False; [exact IH | tauto | tauto].
  - rewrite !filter_cons_True; [rewrite IH; reflexivity | exact Hsys | tauto].
Qed.

(** X3: the filter button changes the view only. With the system lines
    shown the view is the whole transcript; after the button it is the
    transcript without the lines of the speaker "System", the stored lines,
    the stored turns and the file being what they were; a second press
    gives back the state before the first. *)
Theorem toggle_system_filters_view (s : QuickGPT) :
  show_system s = true ->
  let s' := _toggle_system s in
  _render_transcript s = transcript s
  /\ _render_transcript s'
     = filter (fun l : Line => l.1 <> "System") (transcript s)
  /\ transcript s' = transcript s
  /\ messages s' = messages s
  /\ history_file s' = history_file s
  /\ _toggle_system s' = s.
Proof.
  intros Hshow. cbn zeta. split; [apply render_all, Hshow|].
  split.
  { rewrite render_filtered by (unfold _toggle_system; fields;
                                 rewrite Hshow; reflexivity).
    reflexivity. }
  repeat split.
  destruct s. cbn in Hshow. subst. reflexivity.
Qed.

Lemma toggle_system_filters_view_witness :
  let s := run [Hotkey 3 32; Submitted "x"; WorkerFinished 0 "y"] fresh in
  let s' := _toggle_system s in
  _render_transcript s = transcript s
  /\ _render_transcript s'
     = filter (fun l : Line => l.1 <> "System") (transcript s)
  /\ transcript s' = transcript s
  /\ messages s' = messages s
  /\ history_file s' = history_file s
  /\ _toggle_system s' = s.
Proof.
  apply (toggle_system_filters_view
           (run [Hotkey 3 32; Submitted "x"; WorkerFinished 0 "y"] fresh)).
  vm_compute. reflexivity.
Defined.

(** ** Escaping for the markup *)

Lemma append_cons c a b : String c a +:+ b = String c (a +:+ b).
Proof. reflexivity. Qed.

Lemma chars_cons c s : chars (String c s) = c :: chars s.
Proof. reflexivity. Qed.

Lemma chars_app a b : chars (a +:+ b) = chars a ++ chars b.
Proof.
  induction a as [|c a IH]; [reflexivity|].
  rewrite append_cons, !chars_cons, IH. reflexivity.
Qed.

(** The replaced character is gone when the replacement does not bring it
    back. *)
Lemma replace_char_removes old new s :
  old ∉ chars new -> old ∉ chars (replace_char old new s).
Proof.
  intros Hnew. induction s as [|c s IH]; cbn [replace_char].
  - cbn. apply not_elem_of_nil.
  - case_bool_decide as Hc.
    + rewrite chars_app, elem_of_app. tauto.
    + rewrite chars_cons, elem_of_cons.
      intros [->|Hin]; [apply Hc; reflexivity | tauto].
Qed.

(** A character that is neither in the text nor in the replacement is not
    in the result. *)
Lemma replace_char_keeps_out c old new s :
  c ∉ chars new -> c ∉ chars s -> c ∉ chars (replace_char old new s).
Proof.
  intros Hnew. induction s as [|d s IH]; cbn [replace_char]; intros Hs.
  - exact Hs.
  - rewrite chars_cons, not_elem_of_cons in Hs. destruct Hs as [Hd Hs].
    case_bool_decide.
    + rewrite chars_app, elem_of_app. intros [?|?]; [tauto | apply IH; tauto].
    + rewrite chars_cons, not_elem_of_cons.
      split; [exact Hd | apply IH, Hs].
Qed.

Lemma replace_char_absent old new s :
  old ∉ chars s -> replace_char old new s = s.
Proof.
  induction s as [|c s IH]; [reflexivity|].
  rewrite chars_cons, not_elem_of_cons. intros [Hc Hs]. cbn [replace_char].
  rewrite bool_decide_eq_false_2 by congruence.
  rewrite IH by exact Hs. reflexivity.
Qed.

Ltac not_in_literal :=
  cbn; rewrite ?not_elem_of_cons; repeat split;
  [discriminate .. | apply not_elem_of_nil].

(** X4: the text of a line reaches the markup escaped: after
    [html.escape] it holds no angle bracket and no quote, after the line
    breaks are replaced it holds no quote and no newline, and a text with
    none of the six characters is inserted as it is. *)
Theorem text_is_escaped (text : string) :
  (forall c, c ∈ ["<"; ">"; "034"; "'"]%char -> c ∉ chars (html_escape text))
  /\ (forall c, c ∈ ["034"; "'"; "010"]%char -> c ∉ chars (safe_text text))
  /\ ((forall c, c ∈ ["&"; "<"; ">"; "034"; "'"; "010"]%char ->
                 c ∉ chars text) ->
      safe_text text = text).
Proof.
  split; [|split].
  - intros c Hc. unfold html_escape.
    repeat (apply elem_of_cons in Hc as [->|Hc]); [| | | |inversion Hc].
    + do 3 (apply replace_char_keeps_out; [not_in_literal|]).
      apply replace_char_removes. not_in_literal.
    + do 2 (apply replace_char_keeps_out; [not_in_literal|]).
      apply replace_char_removes. not_in_literal.
    + apply replace_char_keeps_out; [not_in_literal|].
      apply replace_char_removes. not_in_literal.
    + apply replace_char_removes. not_in_literal.
  - intros c Hc. unfold safe_text, html_escape.
    repeat (apply elem_of_cons in Hc as [->|Hc]); [| | |inversion Hc].
    + do 2 (apply replace_char_keeps_out; [not_in_literal|]).
      apply replace_char_removes. not_in_literal.
    + apply replace_char_keeps_out; [not_in_literal|].
      apply replace_char_removes. not_in_literal.
    + apply replace_char_removes. not_in_literal.
  - intros Hnone. unfold safe_text, html_escape.
    rewrite (replace_char_absent "&") by (apply Hnone; repeat constructor).
    rewrite (replace_char_absent "<") by (apply Hnone; repeat constructor).
    rewrite (replace_char_absent ">") by (apply Hnone; repeat constructor).
    rewrite (replace_char_absent "034") by (apply Hnone; repeat constructor).
    rewrite (replace_char_absent "'") by (apply Hnone; repeat constructor).
    apply replace_char_absent, Hnone. repeat constructor.
Qed.

Lemma text_is_escaped_witness :
  safe_text "2 + 2 = 4" = "2 + 2 = 4".
Proof.
  apply (text_is_escaped "2 + 2 = 4").
  intros c Hc.
  repeat (apply elem_of_cons in Hc as [->|Hc]); [| | | | | |inversion Hc];
    eapply bool_decide_eq_true_1; vm_compute; reflexivity.
Defined.

(** ** The placeholder over a run *)

Lemma placeholders_app t u :
  placeholders (t ++ u) = (placeholders t + placeholders u)%nat.
Proof. unfold placeholders. rewrite filter_app, length_app. reflexivity. Qed.

Lemma placeholders_snoc_other t who c text :
  c <> "T"%char -> placeholders (t ++ [(who, String c text)]) = placeholders t.
Proof.
  intros Hc. rewrite placeholders_app. unfold placeholders at 2.
  rewrite filter_cons_False, filter_nil; [cbn [length]; lia|].
  unfold is_placeholder. cbn [fst snd]. rewrite andb_true_iff.
  intros [_ Heq]. apply bool_decide_eq_true in Heq.
  apply Hc. unfold PLACEHOLDER in Heq. congruence.
Qed.

Lemma placeholders_snoc_speaker t who text :
  who <> "System" -> placeholders (t ++ [(who, text)]) = placeholders t.
Proof.
  intros Hwho. rewrite placeholders_app. unfold placeholders at 2.
  rewrite filter_cons_False, filter_nil; [cbn [length]; lia|].
  unfold is_placeholder. cbn [fst snd]. rewrite andb_true_iff.
  intros [Heq _]. apply bool_decide_eq_true in Heq. contradiction.
Qed.

Lemma placeholders_none t :
  Forall (fun l => is_placeholder l = false) t -> placeholders t = 0%nat.
Proof.
  intros Hnone. unfold placeholders. induction Hnone as [|l t Hl _ IH].
  - reflexivity.
  - rewrite filter_cons_False by congruence. exact IH.
Qed.

(** The loop takes one placeholder away when there is one. *)
Lemma placeholders_removed t :
  placeholders (remove_placeholder_from (length t) t)
  = Nat.pred (placeholders t).
Proof.
  destruct (last_placeholder_split t) as [(a & b & -> & Hb)|Hnone].
  - rewrite remove_placeholder_last;
      [| apply placeholder_is_placeholder | exact Hb
       | rewrite !length_app; cbn [length]; lia].
    rewrite !placeholders_app.
    change (("System", PLACEHOLDER) :: b)
      with ([("System", PLACEHOLDER)] ++ b).
    rewrite placeholders_app, (placeholders_none b Hb).
    unfold placeholders at 3.
    rewrite filter_cons_True by apply placeholder_is_placeholder.
    cbn. lia.
  - rewrite remove_placeholder_none by exact Hnone.
    rewrite (placeholders_none t Hnone). reflexivity.
Qed.

Lemma on_hotkey_placeholders mods vk s :
  placeholders (transcript (_on_hotkey mods vk s))
  = placeholders (transcript s).
Proof.
  handler; rewrite ?append_cons;
    rewrite ?placeholders_snoc_other by discriminate; reflexivity.
Qed.

Lemma handle_user_message_placeholders text s :
  placeholders (transcript (_handle_user_message text s))
  = S (placeholders (transcript s)).
Proof.
  assert (transcript (_handle_user_message text s)
          = (transcript (if debug s
                         then _append_system
                                ("[debug] Submit: " +:+ substring 0 60 text) s
                         else s)
             ++ [("You", text)]) ++ [("System", PLACEHOLDER)]) as ->.
  { unfold _handle_user_message, _save_history.
    destruct (disk_ok _); reflexivity. }
  rewrite placeholders_app, placeholders_snoc_speaker by discriminate.
  unfold placeholders at 2.
  rewrite filter_cons_True by apply placeholder_is_placeholder.
  cbn [filter list_filter length].
  destruct (debug s).
  - unfold _append_system, _append_line. fields.
    rewrite append_cons, placeholders_snoc_other by discriminate. lia.
  - lia.
Qed.

Lemma handle_user_message_threads text s :
  threads (_handle_user_message text s)
  = threads s
    ++ [{| worker_messages :=
             SYSTEM_TURN :: last_n 20 (messages s ++ [user_turn text]);
           worker_model := model s |}].
Proof.
  unfold _handle_user_message, _save_history.
  destruct (debug s); destruct (disk_ok _); reflexivity.
Qed.

Lemma on_reply_transcript reply s :
  transcript (_on_reply reply s)
  = remove_placeholder_from (length (transcript s)) (transcript s)
    ++ [("Assistant", reply)].
Proof.
  unfold _on_reply, _save_history. destruct (disk_ok _); reflexivity.
Qed.

Lemma on_reply_threads reply s : threads (_on_reply reply s) = threads s.
Proof.
  unfold _on_reply, _save_history. destruct (disk_ok _); reflexivity.
Qed.

Lemma placeholders_step ev s :
  enabled ev s = true -> any_event ev s = true ->
  (placeholders (transcript s) <= length (threads s))%nat ->
  (placeholders (transcript (dispatch ev s))
   <= length (threads (dispatch ev s)))%nat.
Proof.
  intros Hen _ Hinv. destruct ev; cbn [dispatch enabled] in *.
  - rewrite on_hotkey_placeholders, on_hotkey_threads. exact Hinv.
  - unfold SystemTray_toggle. destruct (popup_isVisible s); exact Hinv.
  - exact Hinv.
  - exact Hinv.
  - rewrite handle_user_message_placeholders, handle_user_message_threads,
      length_app.
    cbn [length]. lia.
  - apply bool_decide_eq_true in Hen.
    rewrite on_reply_transcript, on_reply_threads. fields.
    rewrite placeholders_snoc_speaker by discriminate.
    rewrite placeholders_removed, length_delete.
    + lia.
    + apply lookup_lt_is_Some_2, Hen.
  - apply bool_decide_eq_true in Hen.
    rewrite on_error_transcript. unfold error_line.
    change (threads (_on_error err ?x)) with (threads x). fields.
    rewrite append_cons, placeholders_snoc_other by discriminate.
    rewrite placeholders_removed, length_delete.
    + lia.
    + apply lookup_lt_is_Some_2, Hen.
  - rewrite clear_chat_transcript.
    replace (placeholders [("System", "History cleared.")]) with 0%nat
      by (vm_compute; reflexivity).
    lia.
  - exact Hinv.
  - unfold _on_model_changed, _save_history.
    destruct (disk_ok _); exact Hinv.
  - exact Hinv.
  - exact Hinv.
Qed.

(** X5: over every run there are at most as many placeholder lines on
    screen as requests out; once every request has reported, no "Thinking…"
    line is left. *)
Theorem placeholders_bounded_by_requests (s0 : QuickGPT)
    (evs : list Event) :
  (placeholders (transcript s0) <= length (threads s0))%nat ->
  admissible any_event evs s0 = true ->
  (placeholders (transcript (run evs s0))
   <= length (threads (run evs s0)))%nat
  /\ (threads (run evs s0) = [] ->
      ("System", PLACEHOLDER) ∉ transcript (run evs s0)).
Proof.
  intros Hinit Hadm.
  pose proof (run_invariant any_event _ placeholders_step evs s0 Hinit Hadm)
    as Hinv.
  cbv beta in Hinv. split; [exact Hinv|].
  intros Hnone Hin. rewrite Hnone in Hinv. cbn [length] in Hinv.
  apply list_elem_of_split in Hin as (a & b & Ht).
  rewrite Ht in Hinv.
  change (("System", PLACEHOLDER) :: b)
    with ([("System", PLACEHOLDER)] ++ b) in Hinv.
  rewrite !placeholders_app in Hinv. unfold placeholders at 2 in Hinv.
  rewrite filter_cons_True in Hinv by apply placeholder_is_placeholder.
  cbn in Hinv. lia.
Qed.

Lemma placeholders_bounded_by_requests_witness :
  let evs := [Hotkey 3 32; Submitted "a"; Submitted "b";
              WorkerError 0 "timeout"; ClearClicked; WorkerFinished 0 "y"] in
  (placeholders (transcript (run evs fresh))
   <= length (threads (run evs fresh)))%nat
  /\ (threads (run evs fresh) = [] ->
      ("System", PLACEHOLDER) ∉ transcript (run evs fresh)).
Proof.
  apply (placeholders_bounded_by_requests fresh
           [Hotkey 3 32; Submitted "a"; Submitted "b";
            WorkerError 0 "timeout"; ClearClicked; WorkerFinished 0 "y"]).
  - vm_compute. lia.
  - vm_compute. reflexivity.
Defined.

(** ** The file over a run *)

Lemma on_hotkey_store mods vk s :
  model (_on_hotkey mods vk s) = model s
  /\ history_file (_on_hotkey mods vk s) = history_file s
  /\ disk_ok (_on_hotkey mods vk s) = disk_ok s.
Proof. handler; repeat split. Qed.

Lemma on_reply_disk_ok reply s : disk_ok (_on_reply reply s) = disk_ok s.
Proof.
  unfold _on_reply.
  change (disk_ok (_save_history (_append_assistant reply
            (_remove_last_system_placeholder s))) = disk_ok s).
  rewrite save_history_disk_ok. reflexivity.
Qed.

Lemma clear_chat_disk_ok s : disk_ok (_clear_chat s) = disk_ok s.
Proof. unfold _clear_chat. rewrite save_history_disk_ok. reflexivity. Qed.

Lemma on_model_changed_persisted m s :
  disk_ok s = true ->
  history_file (_on_model_changed m s)
  = Some (saved (_on_model_changed m s)).
Proof.
  intros Hd. unfold _on_model_changed. apply save_history_persisted, Hd.
Qed.

Lemma written_through_frame s s' :
  messages s' = messages s -> model s' = model s ->
  history_file s' = history_file s ->
  written_through s -> written_through s'.
Proof.
  unfold written_through, saved. intros -> -> ->. tauto.
Qed.

Lemma written_through_step ev s :
  enabled ev s = true -> disk_stays_ok ev s = true ->
  disk_ok s = true /\ written_through s ->
  disk_ok (dispatch ev s) = true /\ written_through (dispatch ev s).
Proof.
  intros _ Hpol [Hd Hw]. destruct ev; cbn [dispatch disk_stays_ok] in *.
  - destruct (on_hotkey_store mods vk s) as (Hm & Hf & Hd').
    split; [congruence|].
    apply (written_through_frame s); auto using on_hotkey_messages.
  - split; [unfold SystemTray_toggle; destruct (popup_isVisible s); exact Hd|].
    apply (written_through_frame s); try exact Hw;
      unfold SystemTray_toggle; destruct (popup_isVisible s); reflexivity.
  - split; [exact Hd | exact Hw].
  - split; [exact Hd | exact Hw].
  - split; [rewrite handle_user_message_disk_ok; exact Hd|].
    left. apply handle_user_message_persisted, Hd.
  - split; [rewrite on_reply_disk_ok; exact Hd|].
    left. apply on_reply_persisted. exact Hd.
  - split; [exact Hd|]. apply (written_through_frame s); auto.
  - split; [rewrite clear_chat_disk_ok; exact Hd|].
    left. apply clear_chat_persisted, Hd.
  - split; [exact Hd | exact Hw].
  - split; [unfold _on_model_changed; rewrite save_history_disk_ok; exact Hd|].
    left. apply on_model_changed_persisted, Hd.
  - split; [exact Hd | exact Hw].
  - split; [exact Hpol | exact Hw].
Qed.

(** X6: as long as the disk takes every write, the history file follows
    the application through every run: at each point it holds exactly the
    stored turns and the model, or it does not exist yet and no turn is
    stored. *)
Theorem file_follows_the_turns (s0 : QuickGPT) (evs : list Event) :
  disk_ok s0 = true ->
  written_through s0 ->
  admissible disk_stays_ok evs s0 = true ->
  written_through (run evs s0).
Proof.
  intros Hd Hw Hadm.
  apply (run_invariant disk_stays_ok
           (fun s => disk_ok s = true /\ written_through s)
           written_through_step evs s0 (conj Hd Hw) Hadm).
Qed.

Lemma file_follows_the_turns_witness :
  written_through
    (run [Hotkey 3 32; Submitted "a"; WorkerError 0 "timeout";
          ModelChanged "o4-mini"; Submitted "b"; WorkerFinished 0 "y"]
       fresh).
Proof.
  apply (file_follows_the_turns fresh
           [Hotkey 3 32; Submitted "a"; WorkerError 0 "timeout";
            ModelChanged "o4-mini"; Submitted "b"; WorkerFinished 0 "y"]).
  - vm_compute. reflexivity.
  - right. vm_compute. split; reflexivity.
  - vm_compute. reflexivity.
Defined.

(** ** The shape of the requests *)

Lemma last_n_snoc {A} (n : nat) (l : list A) (x : A) :
  last_n (S n) (l ++ [x]) = last_n n l ++ [x].
Proof.
  unfold last_n. rewrite length_app. cbn [length].
  replace (length l + 1 - S n)%nat with (length l - n)%nat by lia.
  rewrite drop_app_le by lia. reflexivity.
Qed.

Lemma new_request_well_formed text turns model' :
  Forall is_chat_role turns ->
  well_formed_request
    {| worker_messages := SYSTEM_TURN :: last_n 20 (turns ++ [user_turn text]);
       worker_model := model' |}.
Proof.
  intros Hroles. exists (last_n 19 turns), text. cbn [worker_messages].
  rewrite last_n_snoc. split; [reflexivity|]. split.
  - destruct (last_n_suffix 19 turns) as [pre Hpre].
    rewrite Hpre in Hroles. apply Forall_app in Hroles. tauto.
  - rewrite last_n_length. lia.
Qed.

Lemma chat_only_frame s s' :
  messages s' = messages s -> threads s' = threads s ->
  chat_only s -> chat_only s'.
Proof. unfold chat_only. intros -> ->. tauto. Qed.

Lemma chat_only_step ev s :
  enabled ev s = true -> any_event ev s = true ->
  chat_only s -> chat_only (dispatch ev s).
Proof.
  intros _ _ Hinv. pose proof Hinv as [Hm Ht].
  destruct ev; cbn [dispatch] in *;
    try (apply (chat_only_frame s); [reflexivity | reflexivity | exact Hinv]).
  - apply (chat_only_frame s);
      auto using on_hotkey_messages, on_hotkey_threads.
  - apply (chat_only_frame s); try exact Hinv;
      unfold SystemTray_toggle; destruct (popup_isVisible s); reflexivity.
  - split.
    + rewrite handle_user_message_messages. apply Forall_app. split; [exact Hm|].
      repeat constructor.
    + rewrite handle_user_message_threads. apply Forall_app. split; [exact Ht|].
      constructor; [|constructor]. apply new_request_well_formed, Hm.
  - split.
    + rewrite on_reply_messages. fields. apply Forall_app. split; [exact Hm|].
      constructor; [right; reflexivity | constructor].
    + rewrite on_reply_threads. fields. apply Forall_delete, Ht.
  - split.
    + rewrite on_error_messages. exact Hm.
    + change (threads (_on_error err ?x)) with (threads x). fields.
      apply Forall_delete, Ht.
  - split.
    + rewrite clear_chat_messages. constructor.
    + unfold _clear_chat, _save_history. destruct (disk_ok _); exact Ht.
  - unfold _on_model_changed, _save_history.
    destruct (disk_ok _); exact Hinv.
Qed.

(** X7: when the stored turns start out as user and assistant turns only
    (a first launch stores none), they stay so over every run, and every
    request out consists of the system turn, then at most 19 earlier user
    and assistant turns, then a user turn: the system turn is sent once,
    at the head, and never stored. *)
Theorem requests_are_well_formed (s0 : QuickGPT) (evs : list Event) :
  Forall is_chat_role (messages s0) ->
  Forall well_formed_request (threads s0) ->
  admissible any_event evs s0 = true ->
  Forall is_chat_role (messages (run evs s0))
  /\ Forall well_formed_request (threads (run evs s0)).
Proof.
  intros Hm Ht Hadm.
  apply (run_invariant any_event chat_only chat_only_step evs s0
           (conj Hm Ht) Hadm).
Qed.

Lemma requests_are_well_formed_witness :
  let evs := [Hotkey 3 32; Submitted "a"; WorkerFinished 0 "y";
              Submitted "b"; Submitted "c"] in
  Forall is_chat_role (messages (run evs fresh))
  /\ Forall well_formed_request (threads (run evs fresh)).
Proof.
  apply (requests_are_well_formed fresh
           [Hotkey 3 32; Submitted "a"; WorkerFinished 0 "y";
            Submitted "b"; Submitted "c"]).
  - vm_compute. constructor.
  - vm_compute. constructor.
  - vm_compute. reflexivity.
Defined.

(** ** A request from start to end *)

Lemma delete_last_snoc {A} (l : list A) (x : A) :
  delete (length l) (l ++ [x]) = l.
Proof.
  induction l as [|y l IH]; [reflexivity|].
  cbn [length app]. change (y :: delete (length l) (l ++ [x]) = y :: l).
  rewrite IH. reflexivity.
Qed.

Lemma handle_user_message_working text s :
  working (_handle_user_message text s) = true.
Proof.
  unfold _handle_user_message, _save_history.
  destruct (debug s); destruct (disk_ok _); reflexivity.
Qed.

Lemma clear_chat_threads s : threads (_clear_chat s) = threads s.
Proof.
  unfold _clear_chat, _save_history. destruct (disk_ok _); reflexivity.
Qed.

Lemma on_reply_idle reply s :
  working (_on_reply reply s) = false
  /\ _active_worker (_on_reply reply s) = None.
Proof.
  unfold _on_reply, _save_history. destruct (disk_ok _); split; reflexivity.
Qed.

Lemma clear_chat_working s : working (_clear_chat s) = working s.
Proof.
  unfold _clear_chat, _save_history. destruct (disk_ok _); reflexivity.
Qed.

(** X8: a submission and the outcome of its request, whichever it is,
    bring the application back to idle: [working] is down, the same
    requests are out as before, the worker is forgotten, the placeholder of
    the request is gone, and the stored turns have grown by the user turn,
    followed by the assistant turn on success only. *)
Theorem request_cycle (text : string) (sg : Signal) (s : QuickGPT) :
  let s1 := dispatch (Submitted text) s in
  let s2 := dispatch (signal_event (length (threads s)) sg) s1 in
  working s1 = true
  /\ working s2 = false
  /\ threads s2 = threads s
  /\ _active_worker s2 = None
  /\ placeholders (transcript s2) = placeholders (transcript s)
  /\ messages s2
     = messages s ++ user_turn text
         :: match sg with
            | finished reply => [assistant_turn reply]
            | error _ => []
            end.
Proof.
  intros s1 s2.
  assert (s1 = _handle_user_message text s) as Es1 by reflexivity.
  clearbody s1.
  assert (threads s1 = threads s ++ [{|
            worker_messages :=
              SYSTEM_TURN :: last_n 20 (messages s ++ [user_turn text]);
            worker_model := model s |}]) as Hth
    by (rewrite Es1; apply handle_user_message_threads).
  assert (placeholders (transcript s1) = S (placeholders (transcript s)))
    as Hph by (rewrite Es1; apply handle_user_message_placeholders).
  assert (messages s1 = messages s ++ [user_turn text]) as Hm
    by (rewrite Es1; apply handle_user_message_messages).
  assert (working s1 = true) as Hw
    by (rewrite Es1; apply handle_user_message_working).
  split; [exact Hw|].
  destruct sg as [reply|err]; subst s2; cbn [signal_event dispatch].
  - split; [apply on_reply_idle|].
    split.
    { rewrite on_reply_threads. fields. rewrite Hth. apply delete_last_snoc. }
    split; [apply on_reply_idle|].
    split.
    { rewrite on_reply_transcript. fields.
      rewrite placeholders_snoc_speaker by discriminate.
      rewrite placeholders_removed, Hph. reflexivity. }
    rewrite on_reply_messages. fields. rewrite Hm, <- app_assoc. reflexivity.
  - split; [reflexivity|]. split.
    { change (threads (_on_error err ?x)) with (threads x). fields.
      rewrite Hth. apply delete_last_snoc. }
    split; [reflexivity|]. split.
    { rewrite on_error_transcript. unfold error_line. fields.
      rewrite append_cons, placeholders_snoc_other by discriminate.
      rewrite placeholders_removed, Hph. reflexivity. }
    rewrite on_error_messages. fields. exact Hm.
Qed.

(** ** The model selector *)

Lemma on_model_changed_fields m s :
  model (_on_model_changed m s) = m
  /\ messages (_on_model_changed m s) = messages s
  /\ threads (_on_model_changed m s) = threads s
  /\ working (_on_model_changed m s) = working s
  /\ transcript (_on_model_changed m s) = transcript s
  /\ disk_ok (_on_model_changed m s) = disk_ok s.
Proof.
  unfold _on_model_changed, _save_history. destruct (disk_ok _) eqn:Hd;
    repeat split; exact Hd.
Qed.

(** X9: a change of the model is written to the file at once, beside the
    stored turns, which it leaves alone; the requests already out keep the
    model they were started with, and the next submission is sent with the
    new one. *)
Theorem model_change_applies_to_next_request (m text : string)
    (s : QuickGPT) :
  disk_ok s = true ->
  let s1 := _on_model_changed m s in
  history_file s1
  = Some {| file_messages := messages s; file_model := m |}
  /\ messages s1 = messages s
  /\ threads s1 = threads s
  /\ worker_model <$> last (threads (_handle_user_message text s1)) = Some m.
Proof.
  intros Hd s1.
  destruct (on_model_changed_fields m s) as (Hmod & Hm & Hth & _).
  fold s1 in Hmod, Hm, Hth.
  assert (history_file s1 = Some (saved s1)) as Hf
    by apply on_model_changed_persisted, Hd.
  clearbody s1. split.
  { rewrite Hf. unfold saved. rewrite Hmod, Hm. reflexivity. }
  split; [exact Hm|]. split; [exact Hth|].
  rewrite handle_user_message_threads, last_snoc. cbn. rewrite Hmod.
  reflexivity.
Qed.

Lemma model_change_applies_to_next_request_witness :
  let s := run [Hotkey 3 32; Submitted "a"] fresh in
  let s1 := _on_model_changed "o4-mini" s in
  history_file s1
  = Some {| file_messages := messages s; file_model := "o4-mini" |}
  /\ messages s1 = messages s
  /\ threads s1 = threads s
  /\ worker_model <$> last (threads (_handle_user_message "b" s1))
     = Some "o4-mini".
Proof.
  apply (model_change_applies_to_next_request "o4-mini" "b"
           (run [Hotkey 3 32; Submitted "a"] fresh)).
  vm_compute. reflexivity.
Defined.

(** ** Clearing while a request is out *)

(** X10: the clear command is not held back by a request in flight: it
    leaves [working] up and the request out, and the reply that arrives
    afterwards is stored as the only turn, an assistant turn with no user
    turn before it, and shown below the line that reports the clearing. *)
Theorem clear_during_request (x y : string) (s : QuickGPT) :
  let s2 := dispatch ClearClicked (dispatch (Submitted x) s) in
  let s3 := dispatch (WorkerFinished (length (threads s)) y) s2 in
  working s2 = true
  /\ length (threads s2) = S (length (threads s))
  /\ messages s2 = []
  /\ messages s3 = [assistant_turn y]
  /\ transcript s3 = [("System", "History cleared."); ("Assistant", y)]
  /\ threads s3 = threads s.
Proof.
  intros s2 s3.
  assert (s2 = _clear_chat (_handle_user_message x s)) as Es2 by reflexivity.
  assert (s3 = _on_reply y
                 (set_threads (delete (length (threads s)) (threads s2)) s2))
    as Es3 by reflexivity.
  clearbody s2 s3.
  assert (threads s2 = threads (_handle_user_message x s)) as Hth
    by (rewrite Es2; apply clear_chat_threads).
  rewrite handle_user_message_threads in Hth.
  assert (working s2 = true) as Hw.
  { rewrite Es2, clear_chat_working. apply handle_user_message_working. }
  assert (messages s2 = []) as Hm by (rewrite Es2; apply clear_chat_messages).
  assert (transcript s2 = [("System", "History cleared.")]) as Ht
    by (rewrite Es2; apply clear_chat_transcript).
  split; [exact Hw|]. split.
  { rewrite Hth, length_app. cbn [length]. lia. }
  split; [exact Hm|]. rewrite Es3. split.
  { rewrite on_reply_messages. fields. rewrite Hm. reflexivity. }
  split.
  { rewrite on_reply_transcript. fields. rewrite Ht. reflexivity. }
  rewrite on_reply_threads. fields. rewrite Hth. apply delete_last_snoc.
Qed.

(** ** The hotkey when it fires *)

Lemma VK_MAP_enter : VK_MAP !! "enter" = Some 0x0D.
Proof. vm_compute. reflexivity. Qed.

Lemma typing_guard vk :
  bool_decide (Some vk ∈ [VK_MAP !! "enter"; VK_MAP !! "space"])
  = bool_decide (vk = 0x0D \/ vk = 0x20).
Proof.
  rewrite VK_MAP_enter, VK_MAP_space. apply bool_decide_ext.
  rewrite !elem_of_cons, elem_of_nil. split.
  - intros [[= ->]|[[= ->]|[]]]; auto.
  - intros [->| ->]; auto.
Qed.

(** X11: a hotkey that is a bare Enter or a bare Space does nothing while
    the popup is shown and its input has the focus, so that typing is not
    taken for the shortcut (with the debug lines off the application is
    left as it is). *)
Theorem bare_hotkey_ignored_while_typing (vk : Z) (s : QuickGPT) :
  vk = 0x0D \/ vk = 0x20 ->
  popup_isVisible s = true -> input_hasFocus s = true -> debug s = false ->
  dispatch (Hotkey 0 vk) s = s.
Proof.
  intros Hvk Hvis Hfocus Hdebug. cbn [dispatch]. unfold _on_hotkey.
  rewrite typing_guard, Hvis, Hfocus, Hdebug.
  rewrite (bool_decide_eq_true_2 _ Hvk). reflexivity.
Qed.

Lemma bare_hotkey_ignored_while_typing_witness :
  dispatch (Hotkey 0 0x20) (run [Hotkey 3 32] fresh) = run [Hotkey 3 32] fresh.
Proof.
  apply (bare_hotkey_ignored_while_typing 0x20 (run [Hotkey 3 32] fresh)).
  - right. reflexivity.
  - vm_compute. reflexivity.
  - vm_compute. reflexivity.
  - vm_compute. reflexivity.
Defined.

Lemma hotkey_not_guarded mods vk s :
  mods <> 0 \/ (vk <> 0x0D /\ vk <> 0x20) ->
  popup_isVisible s && input_hasFocus s
  && bool_decide (Some vk ∈ [VK_MAP !! "enter"; VK_MAP !! "space"])
  && bool_decide (mods = 0) = false.
Proof.
  intros Hfree. rewrite typing_guard.
  destruct Hfree as [Hmods|[Hcr Hsp]].
  - rewrite (bool_decide_eq_false_2 _ Hmods). apply andb_false_r.
  - rewrite (bool_decide_eq_false_2 (vk = 0x0D \/ vk = 0x20)) by tauto.
    rewrite andb_false_r. reflexivity.
Qed.

(** X12: while no request is out, a hotkey that has a modifier or is
    neither Enter nor Space (the callback of the fallback library passes
    no modifier and no key) toggles the popup: hidden becomes shown with
    the focus in the input, shown becomes hidden, and neither the flag
    [working], the stored turns nor the requests change. *)
Theorem idle_hotkey_toggles (mods vk : Z) (s : QuickGPT) :
  working s = false ->
  mods <> 0 \/ (vk <> 0x0D /\ vk <> 0x20) ->
  let s' := dispatch (Hotkey mods vk) s in
  popup_isVisible s' = negb (popup_isVisible s)
  /\ input_hasFocus s' = (if popup_isVisible s then input_hasFocus s else true)
  /\ working s' = false
  /\ messages s' = messages s
  /\ threads s' = threads s.
Proof.
  intros Hw Hfree. cbn zeta. cbn [dispatch].
  rewrite on_hotkey_working, on_hotkey_messages, on_hotkey_threads.
  split; [|split; [|auto]].
  - unfold _on_hotkey. rewrite (hotkey_not_guarded mods vk s Hfree).
    unfold _toggle_popup, SystemTray_toggle, _append_system, _append_line.
    destruct (debug s); fields; rewrite Hw; cbn [andb];
      destruct (popup_isVisible s); reflexivity.
  - unfold _on_hotkey. rewrite (hotkey_not_guarded mods vk s Hfree).
    unfold _toggle_popup, SystemTray_toggle, _append_system, _append_line.
    destruct (debug s); fields; rewrite Hw; cbn [andb];
      destruct (popup_isVisible s); reflexivity.
Qed.

Lemma idle_hotkey_toggles_witness :
  let s := fresh in
  let s' := dispatch (Hotkey 0 0) s in
  popup_isVisible s' = negb (popup_isVisible s)
  /\ input_hasFocus s' = (if popup_isVisible s then input_hasFocus s else true)
  /\ working s' = false
  /\ messages s' = messages s
  /\ threads s' = threads s.
Proof.
  apply (idle_hotkey_toggles 0 0 fresh).
  - vm_compute. reflexivity.
  - right. split; discriminate.
Defined.

(** ** The native message *)

Lemma loword (low high : Z) :
  0 <= low < 2 ^ 16 -> Z.land (low + 2 ^ 16 * high) 0xFFFF = low.
Proof.
  intros Hlow. change 0xFFFF with (Z.ones 16).
  rewrite Z.land_ones by lia.
  change (2 ^ 16) with 65536 in *.
  Z.div_mod_to_equations. lia.
Qed.

Lemma hiword (low high : Z) :
  0 <= low < 2 ^ 16 -> Z.shiftr (low + 2 ^ 16 * high) 16 = high.
Proof.
  intros Hlow. rewrite Z.shiftr_div_pow2 by lia.
  change (2 ^ 16) with 65536 in *.
  Z.div_mod_to_equations. lia.
Qed.

(** X13: the native filter hands the hotkey on as the system packed it:
    for a message [WM_HOTKEY] whose [lParam] has the modifiers in its low
    word and the key in the next word, whatever lies above, [_on_hotkey]
    gets these modifiers and this key; every other message and every other
    type of event leaves the application alone. *)
Theorem native_filter_unpacks_lparam (mods vk above : Z) (s : QuickGPT) :
  0 <= mods < 2 ^ 16 -> 0 <= vk < 2 ^ 16 ->
  nativeEventFilter "windows_generic_MSG" WM_HOTKEY
    (mods + 2 ^ 16 * (vk + 2 ^ 16 * above)) s
  = _on_hotkey mods vk s
  /\ (forall message lParam,
        message <> WM_HOTKEY ->
        nativeEventFilter "windows_generic_MSG" message lParam s = s)
  /\ (forall etype message lParam,
        etype <> "windows_generic_MSG" ->
        nativeEventFilter etype message lParam s = s).
Proof.
  intros Hmods Hvk. split; [|split].
  - unfold nativeEventFilter.
    rewrite bool_decide_eq_false_2 by (intros H; apply H; reflexivity).
    rewrite bool_decide_eq_true_2 by reflexivity.
    rewrite loword, hiword, loword by assumption. reflexivity.
  - intros message lParam Hmsg. unfold nativeEventFilter.
    rewrite bool_decide_eq_false_2 by (intros H; apply H; reflexivity).
    rewrite bool_decide_eq_false_2 by exact Hmsg. reflexivity.
  - intros etype message lParam Htype. unfold nativeEventFilter.
    rewrite bool_decide_eq_true_2 by exact Htype. reflexivity.
Qed.

Lemma native_filter_unpacks_lparam_witness :
  nativeEventFilter "windows_generic_MSG" WM_HOTKEY
    (3 + 2 ^ 16 * (0x20 + 2 ^ 16 * 0)) fresh
  = _on_hotkey 3 0x20 fresh.
Proof.
  apply (native_filter_unpacks_lparam 3 0x20 0 fresh); lia.
Defined.

(** ** More on hotkey specifications *)

Ltac each_char c := destruct c as [[] [] [] [] [] [] [] []].

Lemma lower_char_idem c : lower_char (lower_char c) = lower_char c.
Proof. each_char c; reflexivity. Qed.

Lemma lower_char_plus c :
  bool_decide (lower_char c = "+"%char) = bool_decide (c = "+"%char).
Proof. each_char c; reflexivity. Qed.

Lemma isspace_lower_char c : isspace (lower_char c) = isspace c.
Proof. each_char c; reflexivity. Qed.

Lemma lower_idem s : lower (lower s) = lower s.
Proof.
  induction s as [|c s IH]; [reflexivity|].
  cbn [lower]. rewrite lower_char_idem, IH. reflexivity.
Qed.

Lemma lower_empty s : lower s = EmptyString <-> s = EmptyString.
Proof. destruct s; cbn [lower]; split; congruence. Qed.

Lemma split_lower s : split "+" (lower s) = map lower (split "+" s).
Proof.
  induction s as [|c s IH]; [reflexivity|].
  cbn [lower split]. rewrite lower_char_plus, IH.
  case_bool_decide; [reflexivity|].
  destruct (split "+" s); reflexivity.
Qed.

Lemma lstrip_lower s : lstrip (lower s) = lower (lstrip s).
Proof.
  induction s as [|c s IH]; [reflexivity|].
  cbn [lower lstrip]. rewrite isspace_lower_char.
  destruct (isspace c); [exact IH | reflexivity].
Qed.

Lemma rstrip_lower s : rstrip (lower s) = lower (rstrip s).
Proof.
  induction s as [|c s IH]; [reflexivity|].
  cbn [lower rstrip]. rewrite IH, isspace_lower_char.
  destruct (rstrip s); cbn [lower]; [destruct (isspace c)|]; reflexivity.
Qed.

Lemma strip_lower s : strip (lower s) = lower (strip s).
Proof. unfold strip. rewrite lstrip_lower, rstrip_lower. reflexivity. Qed.

Lemma hotkey_parts_lower s : hotkey_parts (lower s) = hotkey_parts s.
Proof.
  unfold hotkey_parts. rewrite split_lower.
  induction (split "+" s) as [|p ps IH]; [reflexivity|].
  cbn [map omap list_omap]. rewrite IH, strip_lower, lower_idem.
  destruct (decide (strip p = EmptyString)) as [Hp|Hp].
  - rewrite !bool_decide_eq_true_2; [reflexivity | exact Hp |].
    apply lower_empty, Hp.
  - rewrite !bool_decide_eq_false_2; [reflexivity | exact Hp |].
    rewrite lower_empty. exact Hp.
Qed.

(** X14: the case of the letters of a specification does not matter: two
    specifications that are equal once lowered parse to the same modifiers
    and the same key. *)
Theorem parse_hotkey_ignores_case (s s' : string) :
  lower s = lower s' -> parse_hotkey s = parse_hotkey s'.
Proof.
  intros Heq. unfold parse_hotkey.
  rewrite <- (hotkey_parts_lower s), <- (hotkey_parts_lower s'), Heq.
  reflexivity.
Qed.

Lemma parse_hotkey_ignores_case_witness :
  parse_hotkey "Ctrl+ALT+Space" = parse_hotkey "ctrl+alt+space".
Proof.
  apply (parse_hotkey_ignores_case "Ctrl+ALT+Space" "ctrl+alt+space").
  vm_compute. reflexivity.
Defined.

Lemma parse_step_modifier_commutes st p q flag :
  modifier_flag p = Some flag ->
  parse_step (parse_step st p) q = parse_step (parse_step st q) p.
Proof.
  intros Hp. unfold parse_step. rewrite Hp.
  destruct (modifier_flag q) as [flag'|]; cbn [fst snd]; [|reflexivity].
  rewrite <- !Z.lor_assoc, (Z.lor_comm flag flag'). reflexivity.
Qed.

(** X15: where a modifier stands in the specification does not matter: a
    modifier token may change places with the token after it, a base key
    included, without any effect on the modifiers and the key. *)
Theorem modifier_position_is_free (s s' : string) (pre post : list string)
    (p q : string) (flag : Z) :
  hotkey_parts s = pre ++ p :: q :: post ->
  hotkey_parts s' = pre ++ q :: p :: post ->
  modifier_flag p = Some flag ->
  parse_hotkey s = parse_hotkey s'.
Proof.
  intros Hs Hs' Hp. unfold parse_hotkey, parse_parts.
  rewrite Hs, Hs', !foldl_app. cbn [foldl].
  rewrite (parse_step_modifier_commutes _ p q flag Hp). reflexivity.
Qed.

Lemma modifier_position_is_free_witness :
  parse_hotkey "shift+ctrl+g" = parse_hotkey "shift+g+ctrl".
Proof.
  apply (modifier_position_is_free "shift+ctrl+g" "shift+g+ctrl"
           ["shift"] [] "ctrl" "g" MOD_CONTROL);
    vm_compute; reflexivity.
Defined.

Lemma VK_MAP_entries :
  map_Forall
    (fun k v => 0 < v < 256 /\ parse_hotkey k = (0, Some v)) VK_MAP.
Proof. eapply bool_decide_eq_true_1. vm_compute. reflexivity. Qed.

Lemma modifier_flag_range p flag :
  modifier_flag p = Some flag ->
  flag = 1 \/ flag = 2 \/ flag = 4 \/ flag = 8.
Proof.
  unfold modifier_flag, MOD_CONTROL, MOD_ALT, MOD_SHIFT, MOD_WIN.
  repeat case_bool_decide; intros [= <-]; auto.
Qed.

Lemma lor_flag_range mods flag :
  0 <= mods < 16 -> flag = 1 \/ flag = 2 \/ flag = 4 \/ flag = 8 ->
  0 <= Z.lor mods flag < 16.
Proof.
  intros Hm Hf.
  assert (mods = 0 \/ mods = 1 \/ mods = 2 \/ mods = 3 \/ mods = 4
          \/ mods = 5 \/ mods = 6 \/ mods = 7 \/ mods = 8 \/ mods = 9
          \/ mods = 10 \/ mods = 11 \/ mods = 12 \/ mods = 13 \/ mods = 14
          \/ mods = 15) as Hcases by lia.
  repeat (destruct Hcases as [->|Hcases]); try subst mods;
    repeat (destruct Hf as [->|Hf]); try subst flag;
    match goal with
    | |- context [Z.lor ?a ?b] =>
        let v := eval vm_compute in (Z.lor a b) in
        change (Z.lor a b) with v
    end; lia.
Qed.

Lemma parse_parts_mods_range parts : 0 <= (parse_parts parts).1 < 16.
Proof.
  induction parts as [|p parts IH] using rev_ind; [cbn; lia|].
  rewrite parse_parts_snoc. unfold parse_step.
  destruct (modifier_flag p) as [flag|] eqn:Hp; cbn [fst]; [|exact IH].
  apply lor_flag_range; [exact IH | eapply modifier_flag_range, Hp].
Qed.

(** X16: what the parser returns fits the registration call: the
    modifiers are a combination of the four flags (0 to 15) and a base key,
    when there is one, is a virtual-key code from 1 to 255; and every name
    of the symbol table, written alone, selects its own code. *)
Theorem parse_hotkey_in_range :
  (forall s, 0 <= (parse_hotkey s).1 < 16)
  /\ (forall s vk, (parse_hotkey s).2 = Some vk -> 0 < vk < 256)
  /\ (forall name vk, VK_MAP !! name = Some vk ->
                      parse_hotkey name = (0, Some vk)).
Proof.
  split; [|split].
  - intros s. apply parse_parts_mods_range.
  - intros s vk. unfold parse_hotkey. rewrite parse_parts_key.
    destruct (last _) as [p|]; cbn [mbind option_bind]; [|discriminate].
    intros Hvk. apply (VK_MAP_entries p vk Hvk).
  - intros name vk Hvk. apply (VK_MAP_entries name vk Hvk).
Qed.

Lemma parse_hotkey_in_range_witness :
  0 < 0x74 < 256 /\ parse_hotkey "f5" = (0, Some 0x74).
Proof.
  destruct parse_hotkey_in_range as (_ & Hkey & Hname). split.
  - apply (Hkey "win+f5" 0x74). vm_compute. reflexivity.
  - apply (Hname "f5" 0x74). vm_compute. reflexivity.
Defined.

(** ** The lines of the start *)

(** X17: the registration at start sets [_native_ok] exactly when the
    specification has a base key and the native call succeeded; the
    fallback library is tried exactly when it is not set. The transcript
    grows by one system line in the first case and by two in the second,
    and nothing else of the conversation is touched. *)
Theorem registration_outcome (HOTKEY : string) (native : NativeResult)
    (kb : KeyboardLib) (s : QuickGPT) :
  let s' := register_hotkey HOTKEY native kb s in
  (_native_ok s' = true
   <-> is_Some (parse_hotkey HOTKEY).2 /\ native = RegisterOk)
  /\ (exists report,
        transcript s' = transcript s ++ report
        /\ length report = (if _native_ok s' then 1 else 2)%nat
        /\ Forall (fun l : Line => l.1 = "System") report)
  /\ messages s' = messages s
  /\ working s' = working s
  /\ threads s' = threads s.
Proof.
  cbn zeta.
  destruct (register_hotkey_frame HOTKEY native kb s)
    as (Hm & _ & Hw & Hth & _).
  split; [|split; [|auto]].
  - unfold register_hotkey, _append_system, _append_line.
    destruct (parse_hotkey HOTKEY).2 as [vk|]; destruct native; destruct kb;
      fields;
      (split;
       [ intros Hn;
         first [ discriminate Hn
               | split; [eexists; reflexivity | reflexivity] ]
       | intros [Hs Hn];
         first [ reflexivity | discriminate Hn
               | destruct Hs as [? Hs]; discriminate Hs ] ]).
  - unfold register_hotkey, _append_system, _append_line.
    destruct (parse_hotkey HOTKEY).2 as [vk|]; destruct native; destruct kb;
      fields; rewrite <- ?app_assoc; eexists;
      (split; [reflexivity|]); (split; [reflexivity|]);
      repeat constructor.
Qed.

(** ** Sending from the input *)

Lemma lstrip_blank s : blank s -> lstrip s = EmptyString.
Proof.
  unfold blank. induction s as [|c s IH]; [reflexivity|].
  rewrite chars_cons. intros Hall. apply Forall_cons in Hall as [Hc Hs].
  cbn [lstrip]. rewrite Hc. apply IH, Hs.
Qed.

Lemma lstrip_head s c r : lstrip s = String c r -> isspace c = false.
Proof.
  induction s as [|d s IH]; [discriminate|].
  cbn [lstrip]. destruct (isspace d) eqn:Hd; [exact IH|].
  intros [= <- _]. exact Hd.
Qed.

Lemma lstrip_not_blank s :
  ~ blank s -> exists c r, lstrip s = String c r.
Proof.
  unfold blank. induction s as [|d s IH]; intros Hnot.
  - destruct Hnot. constructor.
  - cbn [lstrip]. destruct (isspace d) eqn:Hd; [|eauto].
    apply IH. intros Hs. apply Hnot. rewrite chars_cons.
    constructor; assumption.
Qed.

Lemma rstrip_head c r :
  isspace c = false -> exists r', rstrip (String c r) = String c r'.
Proof.
  intros Hc. cbn [rstrip]. rewrite Hc. destruct (rstrip r); eauto.
Qed.

Lemma rstrip_last s c :
  last (chars (rstrip s)) = Some c -> isspace c = false.
Proof.
  induction s as [|d s IH]; [discriminate|].
  cbn [rstrip]. destruct (rstrip s) as [|e r'] eqn:Hr.
  - destruct (isspace d) eqn:Hd; [discriminate|].
    intros [= <-]. exact Hd.
  - rewrite chars_cons, chars_cons, last_cons_cons.
    rewrite chars_cons in IH. exact IH.
Qed.

(** X18: Enter on an input that holds only white space sends nothing: the
    key is consumed, the text stays in the input and the application is
    left as it is; with Shift held, Enter is never consumed and never
    sends, whatever the input holds. *)
Theorem enter_on_blank_input (key : Key) (input : string) (s : QuickGPT) :
  key = Key_Return \/ key = Key_Enter ->
  blank input ->
  eventFilter key false input s = (true, (input, s))
  /\ forall any, eventFilter key true any s = (false, (any, s)).
Proof.
  intros Hkey Hblank.
  assert (strip input = EmptyString) as Hstrip
    by (unfold strip; rewrite (lstrip_blank input Hblank); reflexivity).
  destruct Hkey as [-> | ->]; (split; [|reflexivity]);
    unfold eventFilter, _on_send; cbn zeta; rewrite Hstrip; reflexivity.
Qed.

Lemma enter_on_blank_input_witness :
  eventFilter Key_Return false "   " (show_bottom_right fresh)
  = (true, ("   ", show_bottom_right fresh))
  /\ forall any,
       eventFilter Key_Return true any (show_bottom_right fresh)
       = (false, (any, show_bottom_right fresh)).
Proof.
  apply (enter_on_blank_input Key_Return "   " (show_bottom_right fresh)).
  - left. reflexivity.
  - repeat constructor.
Defined.

(** X19: Enter on an input of ASCII characters that holds more than white
    space consumes the key, empties the input and submits the text
    without the white space around it: the submitted text is not empty,
    neither starts nor ends with white space, and becomes the last stored
    user turn. *)
Theorem enter_submits_stripped_text (key : Key) (input : string)
    (s : QuickGPT) :
  key = Key_Return \/ key = Key_Enter ->
  ascii_text input ->
  ~ blank input ->
  exists text first rest,
    eventFilter key false input s
    = (true, (EmptyString, _handle_user_message text s))
    /\ text = strip input
    /\ text = String first rest
    /\ isspace first = false
    /\ (forall c, last (chars text) = Some c -> isspace c = false)
    /\ messages (_handle_user_message text s)
       = messages s ++ [user_turn text].
Proof.
  intros Hkey _ Hnot.
  destruct (lstrip_not_blank input Hnot) as (c & r & Hl).
  pose proof (lstrip_head input c r Hl) as Hc.
  destruct (rstrip_head c r Hc) as (r' & Hr).
  assert (strip input = String c r') as Hstrip
    by (unfold strip; rewrite Hl; exact Hr).
  exists (strip input), c, r'.
  split.
  { destruct Hkey as [-> | ->]; unfold eventFilter, _on_send; cbn zeta;
      rewrite Hstrip, bool_decide_eq_false_2 by discriminate; reflexivity. }
  split; [reflexivity|]. split; [exact Hstrip|]. split; [exact Hc|].
  split; [| apply handle_user_message_messages].
  intros d. unfold strip. apply rstrip_last.
Qed.

Lemma enter_submits_stripped_text_witness :
  exists text first rest,
    eventFilter Key_Enter false "  hello there " (show_bottom_right fresh)
    = (true,
       (EmptyString, _handle_user_message text (show_bottom_right fresh)))
    /\ text = strip "  hello there "
    /\ text = String first rest
    /\ isspace first = false
    /\ (forall c, last (chars text) = Some c -> isspace c = false)
    /\ messages (_handle_user_message text (show_bottom_right fresh))
       = messages (show_bottom_right fresh) ++ [user_turn text].
Proof.
  apply (enter_submits_stripped_text Key_Enter "  hello there "
           (show_bottom_right fresh)).
  - right. reflexivity.
  - unfold ascii_text. vm_compute. repeat constructor.
  - intros Hblank. unfold blank in Hblank.
    apply Forall_cons in Hblank as [_ Hblank].
    apply Forall_cons in Hblank as [_ Hblank].
    apply Forall_cons in Hblank as [Hh _]. vm_compute in Hh. discriminate.
Defined.

(** ** From the worker to the transcript *)

(** X20: what the worker of a submission does is what the user gets to
    see.  Without a key (none, or an empty one) no request is made and the
    line "Error: OPENAI_API_KEY is not set. ..." is shown; with a key the
    request is made, a reply is stored and shown as the assistant turn, a
    reply without content as an assistant turn with an empty text, and an
    exception of the call is shown as an error line. The user turn is
    stored in every case. *)
Theorem worker_outcome_is_shown (text : string) (key : option string)
    (remote : Request -> Response) (s : QuickGPT) :
  let s1 := dispatch (Submitted text) s in
  let w := worker_for text s in
  let s2 := dispatch (signal_event (length (threads s))
                        (Worker_run key remote w).2) s1 in
  last (threads s1) = Some w
  /\ match key with
     | Some (String _ _) =>
         (Worker_run key remote w).1
         = Some {| request_model := model s;
                   request_messages := worker_messages w |}
         /\ match remote {| request_model := model s;
                            request_messages := worker_messages w |} with
            | Completion reply =>
                messages s2
                = messages s ++ [user_turn text;
                                 assistant_turn (default EmptyString reply)]
                /\ last (transcript s2)
                   = Some ("Assistant", default EmptyString reply)
            | CallRaised e =>
                messages s2 = messages s ++ [user_turn text]
                /\ last (transcript s2) = Some (error_line e)
            end
     | _ =>
         (Worker_run key remote w).1 = None
         /\ messages s2 = messages s ++ [user_turn text]
         /\ last (transcript s2) = Some (error_line MISSING_KEY)
     end.
Proof.
  intros s1 w s2.
  assert (s1 = _handle_user_message text s) as Es1 by reflexivity.
  clearbody s1.
  assert (messages s1 = messages s ++ [user_turn text]) as Hm
    by (rewrite Es1; apply handle_user_message_messages).
  split.
  { rewrite Es1, handle_user_message_threads, last_snoc. reflexivity. }
  assert (forall reply,
            let s' := dispatch (signal_event (length (threads s))
                                  (finished reply)) s1 in
            messages s' = messages s ++ [user_turn text; assistant_turn reply]
            /\ last (transcript s') = Some ("Assistant", reply)) as Hfin.
  { intros reply. cbn zeta. cbn [signal_event dispatch].
    rewrite on_reply_messages, on_reply_transcript, last_snoc. fields.
    rewrite Hm, <- app_assoc. split; reflexivity. }
  assert (forall e,
            let s' := dispatch (signal_event (length (threads s))
                                  (error e)) s1 in
            messages s' = messages s ++ [user_turn text]
            /\ last (transcript s') = Some (error_line e)) as Herr.
  { intros e. cbn zeta. cbn [signal_event dispatch].
    rewrite on_error_messages, on_error_transcript, last_snoc. fields.
    split; [exact Hm | reflexivity]. }
  subst s2.
  destruct key as [[|c k]|]; cbn [Worker_run fst snd].
  - split; [reflexivity|]. apply Herr.
  - split; [reflexivity|].
    change (worker_model w) with (model s).
    destruct (remote _) as [[reply|]|e]; cbn [default].
    + apply Hfin.
    + apply Hfin.
    + apply Herr.
  - split; [reflexivity|]. apply Herr.
Qed.

(** ** The line that is taken back *)

Lemma filter_keeps_others a b :
  filter (fun l : Line => is_placeholder l = false)
    (a ++ ("System", PLACEHOLDER) :: b)
  = filter (fun l : Line => is_placeholder l = false) (a ++ b).
Proof.
  rewrite !filter_app. f_equal.
Qed.

(** X21: taking the placeholder back removes at most one line and never a
    line of the conversation: the lines other than the system line
    "Thinking…" are all kept, in their order (a user who typed "Thinking…"
    keeps that line), and the stored turns, the flag and the requests are
    not touched. *)
Theorem only_the_placeholder_is_removed (s : QuickGPT) :
  let s' := _remove_last_system_placeholder s in
  filter (fun l : Line => is_placeholder l = false) (transcript s')
  = filter (fun l : Line => is_placeholder l = false) (transcript s)
  /\ length (transcript s')
     = (length (transcript s)
        - (if decide (("System", PLACEHOLDER) ∈ transcript s) then 1 else 0))%nat
  /\ is_placeholder ("You", PLACEHOLDER) = false
  /\ messages s' = messages s
  /\ working s' = working s
  /\ threads s' = threads s.
Proof.
  cbn zeta. split; [|split; [|repeat split]].
  - change (transcript (_remove_last_system_placeholder s))
      with (remove_placeholder_from (length (transcript s)) (transcript s)).
    destruct (last_placeholder_split (transcript s))
      as [(a & b & Ht & Hb)|Hnone].
    + rewrite Ht, remove_placeholder_last;
        [| apply placeholder_is_placeholder | exact Hb
         | rewrite !length_app; cbn [length]; lia].
      symmetry. apply filter_keeps_others.
    + rewrite remove_placeholder_none by exact Hnone. reflexivity.
  - change (transcript (_remove_last_system_placeholder s))
      with (remove_placeholder_from (length (transcript s)) (transcript s)).
    destruct (last_placeholder_split (transcript s))
      as [(a & b & Ht & Hb)|Hnone].
    + rewrite Ht, remove_placeholder_last;
        [| apply placeholder_is_placeholder | exact Hb
         | rewrite !length_app; cbn [length]; lia].
      rewrite decide_True by (rewrite elem_of_app, elem_of_cons; auto).
      rewrite !length_app. cbn [length]. lia.
    + rewrite remove_placeholder_none by exact Hnone.
      rewrite decide_False; [lia|].
      intros Hin. rewrite Forall_forall in Hnone.
      specialize (Hnone _ Hin). rewrite placeholder_is_placeholder in Hnone.
      discriminate.
Qed.

(** ** The angle of the border *)

Lemma rainbow_after_angle n :
  rainbow_after n
  = ((5 * (Z.of_nat n + 1)) mod 360, (5 * (Z.of_nat n + 1)) mod 360).
Proof.
  induction n as [|n IH].
  - reflexivity.
  - change (rainbow_after (S n)) with (_update_rainbow (rainbow_after n).1).
    rewrite IH. cbn [fst].
    unfold _update_rainbow, set_angle. cbn zeta.
    rewrite Z.mod_mod by lia.
    rewrite Z.add_mod_idemp_l by lia.
    replace (5 * (Z.of_nat n + 1) + 5) with (5 * (Z.of_nat (S n) + 1)) by lia.
    reflexivity.
Qed.

(** X22: while the rainbow runs, the angle stored in the popup and the
    angle of the border agree, stay from 0 to 359 and advance by 5 degrees
    a tick from 5 on, so that the border is back where it was after 72
    ticks; [set_angle] brings any angle, a negative one too, into that
    range. *)
Theorem rainbow_angle_cycles (n : nat) (angle : Z) :
  (rainbow_after n).1 = (5 * (Z.of_nat n + 1)) mod 360
  /\ (rainbow_after n).2 = (rainbow_after n).1
  /\ 0 <= (rainbow_after n).2 < 360
  /\ rainbow_after (n + 72) = rainbow_after n
  /\ 0 <= set_angle angle < 360.
Proof.
  rewrite !rainbow_after_angle. cbn [fst snd].
  split; [reflexivity|]. split; [reflexivity|].
  split; [apply Z.mod_pos_bound; lia|]. split.
  - replace (5 * (Z.of_nat (n + 72) + 1))
      with (5 * (Z.of_nat n + 1) + 1 * 360) by lia.
    rewrite Z.mod_add by lia. reflexivity.
  - unfold set_angle. apply Z.mod_pos_bound. lia.
Qed.

(** ** Requests and visibility, with the animations *)




Lemma on_reply_visible reply s :
  popup_isVisible (_on_reply reply s) = popup_isVisible s.
Proof.
  unfold _on_reply, _save_history. destruct (disk_ok _); reflexivity.
Qed.









(** The handlers on [QuickGPT] alone are the animated ones followed to
    the end of the posted call and of the animation. *)
Lemma settled_model_agrees (ev : Event) (g : Animated.Gui) :
  Animated.hide_running g = false -> Animated.toggles_posted g = 0%nat ->
  Animated.app (Animated.settle (Animated.dispatch (Animated.Ev ev) g))
  = dispatch ev (Animated.app g).
Proof.
  destruct g as [s hide posted]. cbn [Animated.hide_running
    Animated.toggles_posted Animated.app]. intros -> ->.
  destruct ev; cbn [Animated.dispatch dispatch]; try reflexivity.
  - unfold Animated._on_hotkey, _on_hotkey. cbn [Animated.app].
    destruct (popup_isVisible s && input_hasFocus s
              && bool_decide (Some vk ∈ [VK_MAP !! "enter"; VK_MAP !! "space"])
              && bool_decide (mods = 0)).
    + reflexivity.
    + unfold Animated._toggle_popup, _toggle_popup, Animated.on_app.
      cbn [Animated.app Animated.hide_running Animated.toggles_posted].
      set (s1 := if debug s then _ else s).
      destruct (working s1 && popup_isVisible s1); [reflexivity|].
      unfold Animated.settle, Animated.timer_fired,
        Animated.SystemTray_toggle, SystemTray_toggle.
      cbn [Animated.app Animated.hide_running Animated.toggles_posted
             bool_decide decide_rel Nat.pred].
      rewrite bool_decide_eq_true_2 by lia.
      cbn [Animated.app Animated.hide_running Animated.toggles_posted
             Nat.pred].
      destruct (popup_isVisible s1); reflexivity.
  - unfold Animated.SystemTray_toggle, SystemTray_toggle. cbn [Animated.app].
    destruct (popup_isVisible s); reflexivity.
Qed.
